(** * run_translation.py: vocabulary expansion and sequence scoring

    A shallow embedding of the two pieces of [main] in
    [src/run_translation.py] that carry logic of their own:

    - the block guarded by [model_args.add_new_vocab is not None]
      (lines 401-483), which registers new tokens, resizes the embedding
      matrix and re-initialises the rows of the new tokens;
    - [sequence_accuracy] (lines 666-681) and the grouping of exact
      matches by condition (lines 798-808).

    Python exceptions are values of [outcome]; NumPy arrays are lists with
    their shape carried along, so that broadcasting is decided on shapes
    the way NumPy decides it; float64 values are Rocq's primitive binary64
    floats; the embedding matrix and the two random generators live in an
    explicit store threaded through a state-and-exception monad. *)

From Stdlib Require Import ZArith Floats.
From stdpp Require Import base list gmap strings.

Set Default Proof Using "Type".
Set Warnings "-abstract-large-number".

(** ** Python exceptions *)

Inductive exn : Type :=
  | AssertionError (msg : string)
  | ValueError (msg : string)
  | RuntimeError (msg : string)
  | IndexError (msg : string)
  | ShapeError (msg : string).

Inductive outcome (A : Type) : Type :=
  | Return (a : A)
  | Raise (e : exn).
Arguments Return {A} a.
Arguments Raise {A} e.

#[global] Instance outcome_ret : MRet outcome := fun A a => Return a.
#[global] Instance outcome_bind : MBind outcome := fun A B f m =>
  match m with
  | Return a => f a
  | Raise e => Raise e
  end.

Definition py_assert (b : bool) (msg : string) : outcome unit :=
  if b then Return tt else Raise (AssertionError msg).

(** ** float64 *)

(** Conversion of a (64-bit) integer to float64, rounding to nearest even. *)
Definition int_to_float (z : Z) : float :=
  SF2Prim (SpecFloat.binary_normalize FloatOps.prec FloatOps.emax z 0 false).

(** NumPy's [/] on integer operands: both sides are converted to float64 and
    divided; a zero divisor gives [nan] or an infinity, not an exception. *)
Definition true_divide (a b : Z) : float :=
  PrimFloat.div (int_to_float a) (int_to_float b).

Module Numpy.

(** ** Two-dimensional arrays

    [shape0] and [shape1] are the array's [.shape]; an array with no row
    still has a second dimension. *)
Record ndarray (A : Type) : Type := mk_ndarray {
  shape0 : nat;
  shape1 : nat;
  data : list (list A)
}.
Arguments mk_ndarray {A} shape0 shape1 data.
Arguments shape0 {A} _.
Arguments shape1 {A} _.
Arguments data {A} _.

(** The invariant every NumPy array satisfies. *)
Definition well_shaped {A} (a : ndarray A) : Prop :=
  length (data a) = shape0 a ∧ Forall (λ r, length r = shape1 a) (data a).

(** The array of a rectangular list of rows with [n1] columns. *)
Definition of_rows {A} (n1 : nat) (rows : list (list A)) : ndarray A :=
  mk_ndarray (length rows) n1 rows.

Definition broadcast_error : exn :=
  ValueError "operands could not be broadcast together".

(** One dimension of NumPy's broadcasting rule. *)
Definition broadcast_dim (a b : nat) : outcome nat :=
  if a =? b then Return a
  else if a =? 1 then Return b
  else if b =? 1 then Return a
  else Raise broadcast_error.

(** A dimension of extent 1 is repeated to extent [n]. *)
Definition stretch {A} (n : nat) (l : list A) : list A :=
  match l with
  | [x] => replicate n x
  | _ => l
  end.

(** An elementwise binary operator ([==], [!=], [*]) on two 2-D arrays. *)
Definition binop {A B C} (f : A → B → C) (x : ndarray A) (y : ndarray B)
    : outcome (ndarray C) :=
  n0 ← broadcast_dim (shape0 x) (shape0 y);
  n1 ← broadcast_dim (shape1 x) (shape1 y);
  Return (mk_ndarray n0 n1
    (zip_with (λ r s, zip_with f (stretch n1 r) (stretch n1 s))
       (stretch n0 (data x)) (stretch n0 (data y)))).

(** The same on 1-D arrays. *)
Definition binop1 {A B C} (f : A → B → C) (x : list A) (y : list B)
    : outcome (list C) :=
  n ← broadcast_dim (length x) (length y);
  Return (zip_with f (stretch n x) (stretch n y)).

Definition amap {A B} (f : A → B) (x : ndarray A) : ndarray B :=
  mk_ndarray (shape0 x) (shape1 x) (map (map f) (data x)).

(** [np.pad(a, ((0, 0), (0, w)))]: [w] zeros after every row. *)
Definition pad (a : ndarray Z) (w : nat) : ndarray Z :=
  mk_ndarray (shape0 a) (shape1 a + w) (map (λ r, r ++ replicate w 0%Z) (data a)).

Definition zeros_like (a : ndarray Z) : ndarray Z := amap (λ _, 0%Z) a.

(** [a + c] for a scalar [c]. *)
Definition add_scalar (a : ndarray Z) (c : Z) : ndarray Z := amap (λ x, (x + c)%Z) a.

(** [.astype(np.int32)] on a boolean array. *)
Definition astype_int32 (a : ndarray bool) : ndarray Z := amap Z.b2z a.

Definition sum_list (l : list Z) : Z := foldr Z.add 0%Z l.

(** [.sum(axis=1)]. *)
Definition sum_axis1 (a : ndarray Z) : list Z := map sum_list (data a).

End Numpy.

(** ** [sequence_accuracy] (lines 666-681)

    Both arguments are 2-D arrays, so the unpacking of the two shapes
    succeeds and the second [assert] (on [len(predictions.shape)]) holds;
    the first one compares the batch sizes. The mask is computed on line
    676, before line 677 pads the labels. *)

Definition batch_mismatch : string :=
  "mismatch in batch size in predictions and labels in sequence_accuracy()".

Definition sequence_accuracy (predictions labels : Numpy.ndarray Z) (pad_token_id : Z)
    : outcome (list float) :=
  let batch_size_preds := Numpy.shape0 predictions in
  let max_length_preds := Numpy.shape1 predictions in
  let batch_size_labels := Numpy.shape0 labels in
  let max_length_labels := Numpy.shape1 labels in
  _ ← py_assert (batch_size_labels =? batch_size_preds) batch_mismatch;
  let max_length := max_length_preds `max` max_length_labels in
  let predictions := Numpy.pad predictions (max_length - max_length_preds) in
  ne ← Numpy.binop (λ a b, negb (a =? b)%Z) labels
         (Numpy.add_scalar (Numpy.zeros_like labels) pad_token_id);
  let input_mask := Numpy.astype_int32 ne in
  let labels := Numpy.pad labels (max_length - max_length_labels) in
  eq ← Numpy.binop (λ a b, (a =? b)%Z) predictions labels;
  prod ← Numpy.binop (λ (b : bool) (m : Z), (Z.b2z b * m)%Z) eq input_mask;
  let correct_predictions := Numpy.sum_axis1 prod in
  let length_per_example := Numpy.sum_axis1 input_mask in
  Numpy.binop1 true_divide correct_predictions length_per_example.

(** [accuracy_per_sequence == 1.] *)
Definition exact_matches_of (accuracy_per_sequence : list float) : list bool :=
  map (λ a, PrimFloat.eqb a 1%float) accuracy_per_sequence.

(** The scorer in the words of the specification: both arrays are padded to
    [L = max pred_len label_len], the mask is taken from the padded labels,
    and every example gets [correct / length]. *)
Definition spec_sequence_accuracy (predictions labels : Numpy.ndarray Z) (pad_id : Z)
    : list float :=
  let L := Numpy.shape1 predictions `max` Numpy.shape1 labels in
  let padded_predictions := Numpy.data (Numpy.pad predictions (L - Numpy.shape1 predictions)) in
  let padded_labels := Numpy.data (Numpy.pad labels (L - Numpy.shape1 labels)) in
  zip_with (λ p g,
    let mask := map (λ x : Z, if (x =? pad_id)%Z then 0%Z else 1%Z) g in
    let hits := zip_with (λ a b : Z, Z.b2z (a =? b)%Z) p g in
    let correct := Numpy.sum_list (zip_with Z.mul hits mask) in
    let length := Numpy.sum_list mask in
    true_divide correct length) padded_predictions padded_labels.

(** ** Exact matches by condition (lines 798-808) *)

(** [a[idx]] for a list [idx] of positions. *)
Definition take_indices {A} (a : list A) (idx : list nat) : outcome (list A) :=
  mapM (λ i, match a !! i with
             | Some x => Return x
             | None => Raise (IndexError "index is out of bounds")
             end) idx.

(** [[i for i, x in enumerate(condition_list) if x == cond]] *)
Definition condition_indices (condition_list : list string) (cond : string) : list nat :=
  (filter (λ p, p.2 = cond) (imap (λ i x, (i, x)) condition_list)).*1.

(** [.sum()] of a boolean array. *)
Definition count_true (a : list bool) : Z := Numpy.sum_list (map Z.b2z a).

Fixpoint by_condition_loop (exact_matches : list bool) (condition_list : list string)
    (unique_conditions : list string) (acc : gmap string float)
    : outcome (gmap string float) :=
  match unique_conditions with
  | [] => Return acc
  | cond :: rest =>
      let idx := condition_indices condition_list cond in
      sel ← take_indices exact_matches idx;
      by_condition_loop exact_matches condition_list rest
        (<[cond := true_divide (count_true sel) (Z.of_nat (length idx))]> acc)
  end.

Definition exact_match_acc_by_condition (exact_matches : list bool)
    (condition_list : list string) : outcome (gmap string float) :=
  let unique_conditions := elements (list_to_set condition_list : gset string) in
  acc ← by_condition_loop exact_matches condition_list unique_conditions ∅;
  Return (<["overall" :=
             true_divide (count_true exact_matches) (Z.of_nat (length exact_matches))]> acc).

(** The two quantities of a group in the words of the specification. *)
Definition group_size (condition_list : list string) (cond : string) : nat :=
  length (filter (λ x, x = cond) condition_list).

Definition group_matches (exact_matches : list bool) (condition_list : list string)
    (cond : string) : nat :=
  length (filter (λ p, p.1 = cond ∧ p.2 = true) (zip condition_list exact_matches)).

Definition total_matches (exact_matches : list bool) : nat :=
  length (filter (λ b, b = true) exact_matches).

(** The flags of the examples of one condition, in input order. *)
Definition group_flags (exact_matches : list bool) (condition_list : list string)
    (cond : string) : list bool :=
  (filter (λ p, p.1 = cond) (zip condition_list exact_matches)).*2.

(** ** The vocabulary block (lines 401-483) *)

Definition _T5_EMB_SIZE : nat := 32128.
Definition _BART_EMB_SIZE : nat := 50265.
Definition _LED_EMB_SIZE : nat := 50265.

(** Python's [s1 in s2] on strings. *)
Definition contains (s1 s2 : string) : bool :=
  match String.index 0 s1 s2 with
  | Some _ => true
  | None => false
  end.

Definition newline : Ascii.ascii := Ascii.ascii_of_nat 10.

(** [line.rstrip('\n')] *)
Fixpoint rstrip_newline (line : string) : string :=
  match line with
  | EmptyString => EmptyString
  | String c rest =>
      match rstrip_newline rest with
      | EmptyString => if Ascii.eqb c newline then EmptyString else String c EmptyString
      | r => String c r
      end
  end.

(** Lines 407-421: one new token per line of the vocabulary file. *)
Definition load_new_vocabs (prepend_space_to_vocab : bool) (vocab_file : list string)
    : list string :=
  map (λ line,
         let w := rstrip_newline line in
         if prepend_space_to_vocab then String.append " " w else w) vocab_file.

Module Tokenizer.

(** Modelled from the spec: the tokenizer object and its [add_tokens] belong
    to the transformers library, which is not part of the source file. A
    vocabulary maps token strings to ids; a token is registered by appending
    it unless it is already recognised, and its id is the next available id
    (the size of the vocabulary at that moment). *)
Definition add_token (vocab : gmap string nat) (w : string) : gmap string nat :=
  match vocab !! w with
  | Some _ => vocab
  | None => <[w := size vocab]> vocab
  end.

(** [tokenizer.add_tokens(ws)] *)
Definition add_tokens (vocab : gmap string nat) (ws : list string) : gmap string nat :=
  foldl add_token vocab ws.

(** [len(tokenizer)] *)
Definition len (vocab : gmap string nat) : nat := size vocab.

End Tokenizer.

(** Lines 422-423: [for w in new_vocabs: tokenizer.add_tokens([w])]. *)
Definition add_new_vocabs (vocab : gmap string nat) (new_vocabs : list string)
    : gmap string nat :=
  foldl (λ tok w, Tokenizer.add_tokens tok [w]) vocab new_vocabs.

(** The ids the loop has given to the tokens of [new_vocabs], in input order. *)
Definition added_ids (vocab : gmap string nat) (new_vocabs : list string)
    : list (option nat) :=
  map (λ w, add_new_vocabs vocab new_vocabs !! w) new_vocabs.

(** Python's [a[-k:]] starts at row [len(a) - k] (not below 0) for [k > 0]
    and at row 0 for [k = 0], where [-0] is [0]; [a[:-k]] stops there. *)
Definition neg_index (n k : nat) : nat := if k =? 0 then 0 else n - k.

Definition slice_to_neg {A} (k : nat) (a : list A) : list A :=
  take (neg_index (length a) k) a.

Definition slice_from_neg {A} (k : nat) (a : list A) : list A :=
  drop (neg_index (length a) k) a.

(** [gen] called [k] times in a row on a generator state. *)
Fixpoint draw {S A} (gen : S → A * S) (k : nat) (s : S) : list A * S :=
  match k with
  | 0 => ([], s)
  | S k' => let '(x, s1) := gen s in
            let '(xs, s2) := draw gen k' s1 in
            (x :: xs, s2)
  end.

(** [x[i], x[j] = x[j], x[i]] *)
Definition swap {A} (x : list A) (i j : nat) : list A :=
  match x !! i, x !! j with
  | Some a, Some b => <[i := b]> (<[j := a]> x)
  | _, _ => x
  end.

(** [torch.stack(rows, dim=0)] refuses an empty sequence. *)
Definition torch_stack {A} (rows : list A) : outcome (list A) :=
  match rows with
  | [] => Raise (RuntimeError "stack expects a non-empty TensorList")
  | _ => Return rows
  end.

Section VocabExpansion.

(** An embedding row; its entries play no role in what is copied where. *)
Context {row : Type}.

(** NumPy's global generator: [random_interval s m] draws from [0..m]. *)
Context {np_state : Type}.
Variable random_interval : np_state → nat → nat * np_state.

(** torch: its generator, and the numeric collaborators of the [avg] branch. *)
Context {torch_state mat dist : Type}.
Variable init_weight : torch_state → row * torch_state.
Variable torch_mean : list row → row.
Variable centered_gram : list row → row → mat.
Variable mat_div : mat → nat → mat.
Variable mat_scale : float → mat → mat.
Variable MultivariateNormal : row → mat → outcome dist.
Variable dist_sample : dist → torch_state → row * torch_state.

(** What the block reads and mutates. *)
Record store : Type := mk_store {
  tokenizer : gmap string nat;
  weight : list row;
  np_random : np_state;
  torch_random : torch_state
}.

Definition set_tokenizer (t : gmap string nat) (st : store) : store :=
  mk_store t (weight st) (np_random st) (torch_random st).
Definition set_weight (w : list row) (st : store) : store :=
  mk_store (tokenizer st) w (np_random st) (torch_random st).
Definition set_np_random (s : np_state) (st : store) : store :=
  mk_store (tokenizer st) (weight st) s (torch_random st).
Definition set_torch_random (s : torch_state) (st : store) : store :=
  mk_store (tokenizer st) (weight st) (np_random st) s.

(** Statements run on the store and end normally or with an exception; the
    store survives the exception. *)
Definition M (A : Type) : Type := store → outcome A * store.

#[global] Instance M_ret : MRet M := λ A a st, (Return a, st).
#[global] Instance M_bind : MBind M := λ A B f m st,
  match m st with
  | (Return a, st1) => f a st1
  | (Raise e, st1) => (Raise e, st1)
  end.

Definition lift {A} (o : outcome A) : M A := λ st, (o, st).
Definition get_weight : M (list row) := λ st, (Return (weight st), st).
Definition len_tokenizer : M nat := λ st, (Return (Tokenizer.len (tokenizer st)), st).

(** Modelled from the spec: [model.resize_token_embeddings] belongs to the
    transformers library. It grows or truncates the matrix to
    [new_num_tokens] rows, keeps the values and the order of the rows that
    remain, and leaves each added row with the values of its allocation. It
    fails with [ShapeError] when [new_num_tokens] is less than the current
    number of rows and the truncation would remove rows that the vocabulary
    still refers to: the vocabulary refers to the rows below
    [len(tokenizer)], one per id; the rows from there on are padding. *)
Definition resize_token_embeddings (new_num_tokens : nat) : M unit := λ st,
  let old := weight st in
  if (new_num_tokens <? length old) && (new_num_tokens <? Tokenizer.len (tokenizer st)) then
    (Raise (ShapeError
       "truncation would remove rows that are still referenced by the vocabulary"), st)
  else
    let '(fresh, s) := draw init_weight (new_num_tokens - length old) (torch_random st) in
    (Return tt, set_torch_random s (set_weight (take new_num_tokens old ++ fresh) st)).

(** [emb.weight.data[-k:, :] = new_emb]; a source of one row is broadcast. *)
Definition assign_from_neg (k : nat) (new_emb : list row) : M unit := λ st,
  let w := weight st in
  let start := neg_index (length w) k in
  let m := length w - start in
  if length new_emb =? m then (Return tt, set_weight (take start w ++ new_emb) st)
  else match new_emb with
       | [r] => (Return tt, set_weight (take start w ++ replicate m r) st)
       | _ => (Raise (RuntimeError "shape mismatch in assignment"), st)
       end.

(** Modelled from the spec: [np.random.choice] and the shuffle under it
    belong to NumPy, not to the source file; sampling is without
    replacement. As in NumPy the shuffle runs
    [for i in reversed(range(1, n))] and swaps item [i] with item
    [random_interval(i)]. The generator never leaves [0..i]; [swap] does
    nothing for a position outside the list. *)
Fixpoint shuffle (i : nat) (x : list nat) (s : np_state) : list nat * np_state :=
  match i with
  | 0 => (x, s)
  | S i' => let '(j, s1) := random_interval s i in shuffle i' (swap x i j) s1
  end.

(** [permutation(n)]: [arange(n)] shuffled. *)
Definition permutation (n : nat) (s : np_state) : list nat * np_state :=
  shuffle (n - 1) (seq 0 n) s.

(** Modelled from the spec: [np.random.choice(a, size, replace=False)] of
    NumPy draws [size] positions without replacement: the first [size]
    items of a permutation of the positions, looked up in [a]. It refuses a
    sample larger than the population. *)
Definition random_choice (a : list nat) (size : nat) : M (list nat) := λ st,
  let pop_size := length a in
  if (pop_size =? 0) && negb (size =? 0) then
    (Raise (ValueError "'a' cannot be empty unless no samples are taken"), st)
  else if pop_size <? size then
    (Raise (ValueError "Cannot take a larger sample than population when 'replace=False'"), st)
  else
    let '(perm, s) := permutation pop_size (np_random st) in
    (take_indices a (take size perm), set_np_random s st).

(** Lines 454-470. *)
Definition init_avg (k : nat) : M unit :=
  emb ← get_weight;
  let old_emb := slice_to_neg k emb in
  let mu := torch_mean old_emb in
  let n := length old_emb in
  let sigma := mat_div (centered_gram old_emb mu) n in
  d ← lift (MultivariateNormal mu (mat_scale 0x1.4f8b588e368f1p-17%float sigma));
  samples ← (λ st, let '(xs, s) := draw (dist_sample d) k (torch_random st) in
                   (Return xs, set_torch_random s st));
  new_emb ← lift (torch_stack samples);
  assign_from_neg k new_emb.

(** Lines 471-481. *)
Definition init_existing_word (k : nat) : M unit :=
  n ← len_tokenizer;
  let old_idx_range := seq 0 (n - k) in
  rand_indices ← random_choice old_idx_range k;
  emb ← get_weight;
  rows ← lift (take_indices emb rand_indices);
  new_emb ← lift (torch_stack rows);
  assign_from_neg k new_emb.

(** Lines 454-483: the dispatch on [model_args.vocab_init_method]; the last
    branch only prints. *)
Definition initialize_new_embeddings (vocab_init_method : option string) (k : nat)
    : M unit :=
  if decide (vocab_init_method = Some "avg") then init_avg k
  else if decide (vocab_init_method = Some "existing_word") then init_existing_word k
  else mret tt.

(** Lines 422-424 on the store. *)
Definition add_new_vocabs_M (new_vocabs : list string) : M unit := λ st,
  (Return tt, set_tokenizer (add_new_vocabs (tokenizer st) new_vocabs) st).

(** Lines 433-442. *)
Definition resize_for (model_name_or_path : string) (k : nat) : M unit :=
  if contains "t5" model_name_or_path then
    n ← len_tokenizer; resize_token_embeddings n
  else if contains "bart" model_name_or_path then
    resize_token_embeddings (_BART_EMB_SIZE + k)
  else if contains "allenai/led" model_name_or_path then
    resize_token_embeddings (_LED_EMB_SIZE + k)
  else
    lift (Raise (ValueError
      "Only T5, BART and LED are currently supported for vocab resizing.")).

(** Lines 402-483, entered when [model_args.add_new_vocab is not None]. *)
Definition add_new_vocab (model_name_or_path : string) (prepend_space_to_vocab : bool)
    (vocab_file : list string) (vocab_init_method : option string) : M unit :=
  _ ← (if contains "t5" model_name_or_path then
         n ← len_tokenizer; resize_token_embeddings n
       else mret tt);
  let new_vocabs := load_new_vocabs prepend_space_to_vocab vocab_file in
  _ ← add_new_vocabs_M new_vocabs;
  _ ← resize_for model_name_or_path (length new_vocabs);
  initialize_new_embeddings vocab_init_method (length new_vocabs).

End VocabExpansion.

(** ** A small instance to run the block on

    Rows of integers; the NumPy generator is a congruential counter and the
    torch side is a stand-in that returns the column sums as the mean and
    draws that mean itself. *)
Module Demo.

Definition row : Type := list Z.

Definition random_interval (s m : nat) : nat * nat := (s mod (S m), (7 * s + 3) mod 101).

Definition init_weight (s : nat) : row * nat := ([Z.of_nat s; Z.of_nat s], S s).

Definition torch_mean (rows : list row) : row :=
  foldr (zip_with Z.add) (replicate 2 0%Z) rows.

Definition MultivariateNormal (mu : row) (_ : unit) : outcome row := Return mu.

Definition dist_sample (d : row) (s : nat) : row * nat := (d, S s).

Definition initialize (vocab_init_method : option string) (k : nat)
    : M (row := row) (np_state := nat) (torch_state := nat) unit :=
  initialize_new_embeddings random_interval torch_mean (λ _ _, tt) (λ m _, m) (λ _ m, m)
    MultivariateNormal dist_sample vocab_init_method k.

Definition block (model_name_or_path : string) (prepend_space_to_vocab : bool)
    (vocab_file : list string) (vocab_init_method : option string)
    : M (row := row) (np_state := nat) (torch_state := nat) unit :=
  add_new_vocab random_interval init_weight torch_mean (λ _ _, tt) (λ m _, m) (λ _ m, m)
    MultivariateNormal dist_sample model_name_or_path prepend_space_to_vocab vocab_file
    vocab_init_method.

(** A tokenizer of three tokens and a matrix of five rows: three old, two
    for tokens that were just added. *)
Definition vocab3 : gmap string nat := {[ "a" := 0; "b" := 1; "c" := 2 ]}.

Definition store5 (seed : nat) : store (row := row) :=
  mk_store (add_new_vocabs vocab3 ["x"; "y"])
    [[10; 11]; [20; 21]; [30; 31]; [0; 0]; [0; 0]]%Z seed 0.

Definition store3 (seed : nat) : store (row := row) :=
  mk_store vocab3 [[10; 11]; [20; 21]; [30; 31]]%Z seed 0.

(** One old token and one token that was just added. *)
Definition store2 (seed : nat) : store (row := row) :=
  mk_store {[ "a" := 0; "x" := 1 ]} [[10; 11]; [0; 0]]%Z seed 0.

End Demo.

(** ** Labels and predictions on their way to the scorer *)

(** Lines 586-589 of [preprocess_function]: with padding to the maximal
    length and [ignore_pad_token_for_loss], every [pad_token_id] among the
    label ids becomes -100. *)
Definition preprocess_labels (pad_to_max_length ignore_pad_token_for_loss : bool)
    (pad_token_id : Z) (labels_input_ids : list (list Z)) : list (list Z) :=
  if pad_to_max_length && ignore_pad_token_for_loss then
    map (λ label, map (λ l, if negb (l =? pad_token_id)%Z then l else (-100)%Z) label)
      labels_input_ids
  else labels_input_ids.

(** Lines 691 and 782: [np.where(labels != -100, labels, pad_token_id)]. *)
Definition restore_pad_labels (pad_token_id : Z) (labels : Numpy.ndarray Z)
    : Numpy.ndarray Z :=
  Numpy.amap (λ l, if negb (l =? -100)%Z then l else pad_token_id) labels.

(** [a[:, 1:]] *)
Definition drop_first_column (a : Numpy.ndarray Z) : Numpy.ndarray Z :=
  Numpy.mk_ndarray (Numpy.shape0 a) (Numpy.shape1 a - 1) (map (drop 1) (Numpy.data a)).

(** Lines 779-792: from the output of [trainer.predict] to the exact-match
    flags. *)
Definition predict_exact_matches (ignore_pad_token_for_loss : bool)
    (predictions label_ids : Numpy.ndarray Z) (pad_token_id : Z) : outcome (list bool) :=
  let test_labels :=
    if ignore_pad_token_for_loss then restore_pad_labels pad_token_id label_ids
    else label_ids in
  let test_predictions := drop_first_column predictions in
  accuracy_per_sequence ← sequence_accuracy test_predictions test_labels pad_token_id;
  Return (exact_matches_of accuracy_per_sequence).

(** ** The arguments and the data sets of [main] *)

(** Exceptions of [main] beyond those of the scorer and the vocabulary
    block: a missing dictionary key and a local variable read before any
    branch assigned it. *)
Inductive main_exn : Type :=
  | PyExn (e : exn)
  | KeyError (key : string)
  | UnboundLocalError (name : string).

Inductive main_outcome (A : Type) : Type :=
  | Finished (a : A)
  | Failed (e : main_exn).
Arguments Finished {A} a.
Arguments Failed {A} e.

#[global] Instance main_outcome_ret : MRet main_outcome := fun A a => Finished a.
#[global] Instance main_outcome_bind : MBind main_outcome := fun A B f m =>
  match m with
  | Finished a => f a
  | Failed e => Failed e
  end.

(** [s.split(sep)] for a separator of one character: the pieces between the
    occurrences of [sep]; never an empty list. *)
Fixpoint split_on (sep : Ascii.ascii) (s : string) : list string :=
  match s with
  | EmptyString => [EmptyString]
  | String c rest =>
      if Ascii.eqb c sep then EmptyString :: split_on sep rest
      else match split_on sep rest with
           | piece :: pieces => String c piece :: pieces
           | [] => [String c EmptyString]
           end
  end.

Definition dot : Ascii.ascii := Ascii.ascii_of_nat 46.

(** [path.split(".")[-1]] *)
Definition file_extension (path : string) : string :=
  default EmptyString (last (split_on dot path)).

(** The fields of [DataTrainingArguments] that the modelled code reads. *)
Record DataTrainingArguments : Type := mk_data_args {
  benchmark : option string;
  source_lang : option string;
  target_lang : option string;
  dataset_name : option string;
  train_file : option string;
  validation_file : option string;
  test_file : option string;
  iid_test_file : option string;
  iid_test_novel_words_file : option string;
  exposure_examples_file : option string;
  max_target_length : option Z;
  val_max_target_length : option Z
}.

Definition set_val_max_target_length (v : option Z) (self : DataTrainingArguments)
    : DataTrainingArguments :=
  mk_data_args (benchmark self) (source_lang self) (target_lang self) (dataset_name self)
    (train_file self) (validation_file self) (test_file self) (iid_test_file self)
    (iid_test_novel_words_file self) (exposure_examples_file self)
    (max_target_length self) v.

(** [assert extension in ["json", "jsonl"], msg] after
    [extension = file.split(".")[-1]], for a file that is given. *)
Definition assert_json (file : option string) (msg : string) : outcome unit :=
  match file with
  | Some f => py_assert (bool_decide (file_extension f ∈ ["json"; "jsonl"])) msg
  | None => Return tt
  end.

(** Lines 248-261. *)
Definition __post_init__ (self : DataTrainingArguments) : outcome DataTrainingArguments :=
  _ ← (if bool_decide (dataset_name self = None ∧ train_file self = None
                       ∧ validation_file self = None)
       then Raise (ValueError "Need either a dataset name or a training/validation file.")
       else if bool_decide (source_lang self = None ∨ target_lang self = None)
       then Raise (ValueError "Need to specify the source language and the target language.")
       else Return tt);
  _ ← assert_json (train_file self) "`train_file` should be a json file.";
  _ ← assert_json (validation_file self) "`validation_file` should be a json file.";
  Return (match val_max_target_length self with
          | None => set_val_max_target_length (max_target_length self) self
          | Some _ => self
          end).

Definition _VALID_TEST_DATASET_NAMES : list string :=
  ["gen"; "iid_test"; "exposure_examples"; "iid_test_novel_words"].

(** One step of lines 330-351: a file that is given is entered under its
    key and sets [extension]. *)
Definition add_data_file (key : string) (file : option string)
    (acc : gmap string string * option string) : gmap string string * option string :=
  match file with
  | Some f => (<[key := f]> acc.1, Some (file_extension f))
  | None => acc
  end.

(** Lines 330-351: [data_files] and [extension]; [extension] is [None]
    while no branch has assigned it. *)
Definition build_data_files (data_args : DataTrainingArguments)
    : gmap string string * option string :=
  let test_key :=
    if bool_decide (benchmark data_args = Some "COGS") then "gen" else "test" in
  add_data_file "exposure_examples" (exposure_examples_file data_args)
    (add_data_file "iid_test_novel_words" (iid_test_novel_words_file data_args)
       (add_data_file "iid_test" (iid_test_file data_args)
          (add_data_file test_key (test_file data_args)
             (add_data_file "validation" (validation_file data_args)
                (add_data_file "train" (train_file data_args) (∅, None)))))).

(** Lines 326-351. Modelled from the spec: [load_dataset] belongs to the
    datasets library; of its result only the names of the splits are kept.
    With [data_files] it gives one split per key; the splits of a data set
    of the hub are an input. *)
Definition load_datasets (data_args : DataTrainingArguments) (hub_splits : gset string)
    : main_outcome (gset string) :=
  match dataset_name data_args with
  | Some _ => Finished hub_splits
  | None =>
      let '(data_files, extension) := build_data_files data_args in
      match extension with
      | Some _ => Finished (dom data_files)
      | None => Failed (UnboundLocalError "extension")
      end
  end.

(** [datasets[key]] as far as the plan needs it. *)
Definition require_split (datasets : gset string) (key : string) : main_outcome string :=
  if bool_decide (key ∈ datasets) then Finished key else Failed (KeyError key).

(** What lines 533-641 settle: the split whose column names are removed
    ([None] while [column_names] is unassigned) and the splits that are
    preprocessed. *)
Record plan : Type := mk_plan {
  column_names_of : option string;
  with_train : bool;
  with_eval : bool;
  test_names : list string
}.

(** Lines 533-551: the choice of [column_names]; [None] is the early
    [return] of [main]. *)
Definition choose_column_names (data_args : DataTrainingArguments)
    (do_train do_eval do_predict : bool) (datasets : gset string)
    : main_outcome (option (option string)) :=
  if do_train then k ← require_split datasets "train"; Finished (Some (Some k))
  else if do_eval then k ← require_split datasets "validation"; Finished (Some (Some k))
  else if do_predict then
    if bool_decide (benchmark data_args = Some "COGS") then
      if bool_decide (test_file data_args ≠ None) then
        k ← require_split datasets "gen"; Finished (Some (Some k))
      else if bool_decide (iid_test_file data_args ≠ None) then
        k ← require_split datasets "iid_test"; Finished (Some (Some k))
      else if bool_decide (iid_test_novel_words_file data_args ≠ None) then
        k ← require_split datasets "iid_test_novel_words"; Finished (Some (Some k))
      else if bool_decide (exposure_examples_file data_args ≠ None) then
        k ← require_split datasets "exposure_examples"; Finished (Some (Some k))
      else Finished (Some None)
    else k ← require_split datasets "test"; Finished (Some (Some k))
  else Finished None.

(** Lines 594-641: the three preprocessing blocks. *)
Definition plan_datasets (data_args : DataTrainingArguments)
    (do_train do_eval do_predict : bool) (datasets : gset string)
    : main_outcome (option plan) :=
  chosen ← choose_column_names data_args do_train do_eval do_predict datasets;
  match chosen with
  | None => Finished None
  | Some column_names =>
      _ ← (if do_train then
             _ ← require_split datasets "train";
             if bool_decide ("train" ∉ datasets)
             then Failed (PyExn (ValueError "--do_train requires a train dataset"))
             else Finished tt
           else Finished tt);
      _ ← (if do_eval then
             if bool_decide ("validation" ∉ datasets)
             then Failed (PyExn (ValueError "--do_eval requires a validation dataset"))
             else Finished tt
           else Finished tt);
      names ← (if do_predict then
                 if negb (existsb (λ dname, bool_decide (dname ∈ datasets))
                            _VALID_TEST_DATASET_NAMES)
                 then Failed (PyExn (ValueError "--do_predict requires a valid test dataset"))
                 else
                   let names := filter (λ dname, dname ∈ datasets)
                                  _VALID_TEST_DATASET_NAMES in
                   match column_names with
                   | None => Failed (UnboundLocalError "column_names")
                   | Some _ => Finished names
                   end
               else Finished []);
      Finished (Some (mk_plan column_names do_train do_eval names))
  end.

(** From the arguments to the plan. *)
Definition main_plan (data_args : DataTrainingArguments)
    (do_train do_eval do_predict : bool) (hub_splits : gset string)
    : main_outcome (option plan) :=
  datasets ← load_datasets data_args hub_splits;
  plan_datasets data_args do_train do_eval do_predict datasets.

(** Lines 489-510: the device map of [model.parallelize]. *)
Definition device_map_for (device_count : nat) : main_outcome (gmap nat (list nat)) :=
  if negb (1 <? device_count) then
    Failed (PyExn (AssertionError "Model parallelism requires more than 1 GPU."))
  else if device_count =? 4 then
    Finished {[ 0 := [0; 1; 2];
                1 := [3; 4; 5; 6; 7; 8; 9];
                2 := [10; 11; 12; 13; 14; 15; 16];
                3 := [17; 18; 19; 20; 21; 22; 23] ]}
  else if device_count =? 3 then
    Finished {[ 0 := [0; 1; 2; 3];
                1 := [4; 5; 6; 7; 8; 9; 10; 11; 12; 13];
                2 := [14; 15; 16; 17; 18; 19; 20; 21; 22; 23] ]}
  else if device_count =? 2 then
    Finished {[ 0 := [0; 1; 2; 3; 4; 5; 6; 7];
                1 := [8; 9; 10; 11; 12; 13; 14; 15; 16; 17; 18; 19; 20; 21; 22; 23] ]}
  else Failed (UnboundLocalError "device_map").

(** A string of [n] newline characters, and a line of a text file. *)
Definition newlines (n : nat) : string :=
  Nat.iter n (String newline) EmptyString.

(** [sep.join(pieces)], the inverse of [split_on]. *)
Fixpoint join_on (sep : Ascii.ascii) (pieces : list string) : string :=
  match pieces with
  | [] => EmptyString
  | [p] => p
  | p :: rest => String.append p (String sep (join_on sep rest))
  end.

(** Whether a string is free of a character. *)
Fixpoint free_of (sep : Ascii.ascii) (s : string) : bool :=
  match s with
  | EmptyString => true
  | String c r => negb (Ascii.eqb c sep) && free_of sep r
  end.

(** File names that end in [.json] or [.jsonl], and the two names that are
    nothing but the extension. *)
Definition json_name (f : string) : Prop :=
  f = "json" ∨ f = "jsonl"
  ∨ ∃ base, f = String.append base ".json" ∨ f = String.append base ".jsonl".

(** The last of the six files that is given, in the order of lines 330-351. *)
Definition last_given_file (data_args : DataTrainingArguments) : option string :=
  last (omap id [train_file data_args; validation_file data_args; test_file data_args;
                 iid_test_file data_args; iid_test_novel_words_file data_args;
                 exposure_examples_file data_args]).

(** The test splits that the given files provide, in the order in which
    lines 628-641 go through them. *)
Definition given_test_names (data_args : DataTrainingArguments) : list string :=
  omap (λ p : string * option string, match p.2 with Some _ => Some p.1 | None => None end)
    [("gen", test_file data_args); ("iid_test", iid_test_file data_args);
     ("exposure_examples", exposure_examples_file data_args);
     ("iid_test_novel_words", iid_test_novel_words_file data_args)].

(** The test split whose columns lines 538-548 look at. *)
Definition first_given_test (data_args : DataTrainingArguments) : option string :=
  head (omap (λ p : string * option string, match p.2 with Some _ => Some p.1 | None => None end)
          [("gen", test_file data_args); ("iid_test", iid_test_file data_args);
           ("iid_test_novel_words", iid_test_novel_words_file data_args);
           ("exposure_examples", exposure_examples_file data_args)]).

(** Arguments of a COGS run and of a SCAN run, to run the plan on. *)
Module DemoArgs.

Definition cogs : DataTrainingArguments :=
  mk_data_args (Some "COGS") (Some "en") (Some "mentalese") None
    (Some "data/train.json") (Some "data/dev.json") (Some "data/gen.json")
    (Some "data/test.json") None None (Some 128%Z) None.

Definition scan : DataTrainingArguments :=
  mk_data_args (Some "SCAN") (Some "en") (Some "mentalese") None
    (Some "scan/train.json") None (Some "scan/test.json") None None None (Some 128%Z) None.

End DemoArgs.

(** ** Ratios of small counts

    Whether [c / n] is [1.0] in float64 is settled by running the divisions
    for all counts up to a bound on the number of label columns. *)

(** For every [n] of [rest], [n / n == 1.], and [c / n != 1.] for every [c]
    of [below] and every [c] before [n] in [rest]. *)
Fixpoint ratios_ok (below rest : list float) : bool :=
  match rest with
  | [] => true
  | n :: rest' =>
      PrimFloat.eqb (PrimFloat.div n n) 1
      && forallb (λ c, negb (PrimFloat.eqb (PrimFloat.div c n) 1)) below
      && ratios_ok (n :: below) rest'
  end.

Definition count_to_float (k : nat) : float := int_to_float (Z.of_nat k).

(** The longest label rows for which the ratios were run. *)
Definition max_checked_length : nat := 1024.

(** A gold row has a label that is not padding. *)
Definition has_label (pad_id : Z) (g : list Z) : Prop := ∃ x, x ∈ g ∧ x ≠ pad_id.

(** A prediction row, read as 0 where it is shorter than the gold row,
    agrees with the gold row wherever the label is not padding. *)
Definition row_matches (pad_id : Z) (p g : list Z) : Prop :=
  ∀ j x, g !! j = Some x → x ≠ pad_id → default 0%Z (p !! j) = x.

(** ** The file of generations (lines 846-849) *)

Definition tab : Ascii.ascii := Ascii.ascii_of_nat 9.

(** [f'{pred}\t{label}\n'] *)
Definition tsv_line (pred label : string) : string :=
  String.append pred (String tab (String.append label (String newline EmptyString))).

(** What the writer has written when the block is left: the header, then
    one line for every pair of [zip(test_preds, test_labels)]. *)
Definition write_generations (test_preds test_labels : list string) : string :=
  foldl (λ written pair, String.append written (tsv_line pair.1 pair.2))
    (String.append "prediction" (String tab (String.append "gold" (String newline EmptyString))))
    (zip test_preds test_labels).

(** Reading a file of tab-separated values: [content.split('\n')], and
    [line.split('\t')] for every line. *)
Definition read_tsv (content : string) : list (list string) :=
  split_on tab <$> split_on newline content.

(** ** torch's side of the [avg] branch *)

Module Torch.

(** Modelled from the spec: the tensor operations of lines 461-465 belong
    to torch. The covariance is kept as the expression that builds it:
    [(old_emb - mu).T @ (old_emb - mu)], a division by [n], a scaling. *)
Inductive covariance (row : Type) : Type :=
  | centered_gram (old_emb : list row) (mu : row)
  | mat_div (sigma : covariance row) (n : nat)
  | mat_scale (c : float) (sigma : covariance row).
Arguments centered_gram {row} old_emb mu.
Arguments mat_div {row} sigma n.
Arguments mat_scale {row} c sigma.

(** The number of rows a covariance was computed over. *)
Fixpoint rows_under {row} (sigma : covariance row) : nat :=
  match sigma with
  | centered_gram old_emb _ => length old_emb
  | mat_div sigma _ => rows_under sigma
  | mat_scale _ sigma => rows_under sigma
  end.

(** Modelled from the spec: [MultivariateNormal] belongs to torch. The
    covariance of fewer than two rows is undefined (the mean of no row is
    NaN, and one row has no spread around itself), and the constructor
    refuses its parameters; what it does with the covariance of two or more
    rows is left to [normal]. *)
Definition MultivariateNormal {row dist} (normal : row → covariance row → outcome dist)
    (mu : row) (covariance_matrix : covariance row) : outcome dist :=
  match rows_under covariance_matrix with
  | 0 => Raise (ValueError "Expected parameter loc to satisfy the constraint Real()")
  | 1 => Raise (ValueError
           "Expected parameter covariance_matrix to satisfy the constraint PositiveDefinite()")
  | _ => normal mu covariance_matrix
  end.

End Torch.

(** The small instance with torch's constructor in place of the stand-in. *)
Module TorchDemo.

Definition normal (mu : Demo.row) (_ : Torch.covariance Demo.row) : outcome Demo.row :=
  Return mu.

Definition initialize (vocab_init_method : option string) (k : nat)
    : M (row := Demo.row) (np_state := nat) (torch_state := nat) unit :=
  initialize_new_embeddings Demo.random_interval Demo.torch_mean Torch.centered_gram
    Torch.mat_div Torch.mat_scale (Torch.MultivariateNormal normal) Demo.dist_sample
    vocab_init_method k.

End TorchDemo.

(** * Properties *)

(** ** Broadcasting *)

Lemma broadcast_dim_same (n : nat) : Numpy.broadcast_dim n n = Return n.
Proof. unfold Numpy.broadcast_dim. by rewrite Nat.eqb_refl. Qed.

Lemma broadcast_dim_clash (a b : nat) :
  a ≠ b → a ≠ 1 → b ≠ 1 → Numpy.broadcast_dim a b = Raise Numpy.broadcast_error.
Proof.
  intros Hab Ha Hb. unfold Numpy.broadcast_dim.
  apply Nat.eqb_neq in Hab, Ha, Hb. by rewrite Hab, Ha, Hb.
Qed.

Lemma stretch_id {A} (n : nat) (l : list A) : length l = n → Numpy.stretch n l = l.
Proof. intros <-. by destruct l as [|x [|y l]]. Qed.

Lemma binop_equal_dims {A B C} (f : A → B → C) (x : Numpy.ndarray A) (y : Numpy.ndarray B) :
  Numpy.shape0 x = Numpy.shape0 y → Numpy.shape1 x = Numpy.shape1 y →
  Numpy.binop f x y
  = Return (Numpy.mk_ndarray (Numpy.shape0 x) (Numpy.shape1 x)
      (zip_with (λ r s, zip_with f (Numpy.stretch (Numpy.shape1 x) r)
                                   (Numpy.stretch (Numpy.shape1 x) s))
         (Numpy.stretch (Numpy.shape0 x) (Numpy.data x))
         (Numpy.stretch (Numpy.shape0 x) (Numpy.data y)))).
Proof.
  intros E0 E1. unfold Numpy.binop. by rewrite <- E0, <- E1, !broadcast_dim_same.
Qed.

Lemma binop_clash {A B C} (f : A → B → C) (x : Numpy.ndarray A) (y : Numpy.ndarray B) :
  Numpy.shape0 x = Numpy.shape0 y →
  Numpy.shape1 x ≠ Numpy.shape1 y → Numpy.shape1 x ≠ 1 → Numpy.shape1 y ≠ 1 →
  Numpy.binop f x y = Raise Numpy.broadcast_error.
Proof.
  intros E0 N1 Nx Ny. unfold Numpy.binop.
  by rewrite <- E0, broadcast_dim_same, broadcast_dim_clash.
Qed.

(** C10: with equal batch sizes, predictions longer than the labels and at
    least two label columns, [sequence_accuracy] raises: the mask has the
    shape of the unpadded labels and cannot be broadcast against the
    comparison, which has [pred_len] columns. *)
Theorem sequence_accuracy_longer_predictions_raise
    (predictions labels : Numpy.ndarray Z) (pad_token_id : Z) :
  Numpy.shape0 labels = Numpy.shape0 predictions →
  Numpy.shape1 labels < Numpy.shape1 predictions →
  2 ≤ Numpy.shape1 labels →
  sequence_accuracy predictions labels pad_token_id = Raise Numpy.broadcast_error.
Proof.
  intros Hb Hlt Hge. unfold sequence_accuracy.
  rewrite Hb, Nat.eqb_refl. simpl.
  rewrite (binop_equal_dims _ labels) by reflexivity. simpl.
  rewrite (binop_equal_dims _ (Numpy.pad predictions _)) by (simpl; lia). simpl.
  rewrite binop_clash; simpl; [done | lia..].
Qed.

Lemma sequence_accuracy_longer_predictions_raise_witness :
  sequence_accuracy (Numpy.of_rows 3 [[5; 6; 7]; [5; 6; 0]]%Z)
    (Numpy.of_rows 2 [[5; 6]; [5; 6]]%Z) 0
  = Raise Numpy.broadcast_error.
Proof.
  apply sequence_accuracy_longer_predictions_raise; simpl; lia.
Defined.

Lemma binop_well_shaped {A B C} (f : A → B → C) (x : Numpy.ndarray A) (y : Numpy.ndarray B) :
  Numpy.well_shaped x → Numpy.well_shaped y →
  Numpy.shape0 x = Numpy.shape0 y → Numpy.shape1 x = Numpy.shape1 y →
  Numpy.binop f x y
  = Return (Numpy.mk_ndarray (Numpy.shape0 x) (Numpy.shape1 x)
              (zip_with (zip_with f) (Numpy.data x) (Numpy.data y))).
Proof.
  intros [Hx0 Hx1] [Hy0 Hy1] E0 E1. rewrite binop_equal_dims by done.
  do 2 f_equal. rewrite !stretch_id by congruence.
  rewrite <- E1 in Hy1. clear - Hx1 Hy1.
  revert Hy1. generalize (Numpy.data y).
  induction Hx1 as [|r rows Hr _ IH]; intros [|s ys] Hs; try done.
  apply Forall_cons in Hs as [Hs Hys]. simpl.
  rewrite !stretch_id by done. f_equal. by apply IH.
Qed.

Lemma well_shaped_pad (a : Numpy.ndarray Z) (w : nat) :
  Numpy.well_shaped a → Numpy.well_shaped (Numpy.pad a w).
Proof.
  intros [H0 H1]. split; simpl.
  - by rewrite length_map.
  - apply Forall_map. eapply Forall_impl; [exact H1|].
    intros r Hr. simpl. by rewrite length_app, length_replicate, Hr.
Qed.

Lemma well_shaped_amap {A B} (f : A → B) (a : Numpy.ndarray A) :
  Numpy.well_shaped a → Numpy.well_shaped (Numpy.amap f a).
Proof.
  intros [H0 H1]. split; simpl.
  - by rewrite length_map.
  - apply Forall_map. eapply Forall_impl; [exact H1|].
    intros r Hr. simpl. by rewrite length_map.
Qed.

Lemma well_shaped_zip {A B C} (f : A → B → C) (x : Numpy.ndarray A) (y : Numpy.ndarray B) :
  Numpy.well_shaped x → Numpy.well_shaped y →
  Numpy.shape0 x = Numpy.shape0 y → Numpy.shape1 x = Numpy.shape1 y →
  Numpy.well_shaped (Numpy.mk_ndarray (Numpy.shape0 x) (Numpy.shape1 x)
                       (zip_with (zip_with f) (Numpy.data x) (Numpy.data y))).
Proof.
  intros [Hx0 Hx1] [Hy0 Hy1] E0 E1. split; simpl.
  - rewrite length_zip_with. lia.
  - rewrite <- E1 in Hy1. clear - Hx1 Hy1. revert Hy1. generalize (Numpy.data y).
    induction Hx1 as [|r rows Hr _ IH]; intros [|s ys] Hs; simpl; try by constructor.
    apply Forall_cons in Hs as [Hs Hys]. constructor; [|by apply IH].
    rewrite length_zip_with. lia.
Qed.

Lemma pad_zero_data (a : Numpy.ndarray Z) : Numpy.data (Numpy.pad a 0) = Numpy.data a.
Proof.
  simpl. rewrite <- (map_id (Numpy.data a)) at 2. apply map_ext. intros r. apply app_nil_r.
Qed.

(** The mask row the code builds from a label row. *)
Lemma mask_row (pad_id : Z) (g : list Z) :
  map Z.b2z (zip_with (λ a b : Z, negb (a =? b)%Z) g
               (map (λ x : Z, (x + pad_id)%Z) (map (λ _ : Z, 0%Z) g)))
  = map (λ x : Z, if (x =? pad_id)%Z then 0%Z else 1%Z) g.
Proof.
  induction g as [|x g IH]; [done|]. simpl. rewrite IH. f_equal.
  rewrite Z.add_0_l. by destruct (x =? pad_id)%Z.
Qed.

Lemma mask_rows (pad_id : Z) (G : list (list Z)) :
  map (map Z.b2z) (zip_with (zip_with (λ a b : Z, negb (a =? b)%Z)) G
     (map (map (λ x : Z, (x + pad_id)%Z)) (map (map (λ _ : Z, 0%Z)) G)))
  = map (map (λ x : Z, if (x =? pad_id)%Z then 0%Z else 1%Z)) G.
Proof.
  induction G as [|g G IH]; [done|]. simpl. by rewrite IH, mask_row.
Qed.

Lemma hits_row (p g m : list Z) :
  zip_with (λ (b : bool) (m : Z), (Z.b2z b * m)%Z) (zip_with (λ a b : Z, (a =? b)%Z) p g) m
  = zip_with Z.mul (zip_with (λ a b : Z, Z.b2z (a =? b)%Z) p g) m.
Proof.
  revert g m. induction p as [|a p IH]; intros [|b g] [|c m]; simpl; try done.
  by rewrite IH.
Qed.

Lemma accuracy_rows (pad_id : Z) (P G : list (list Z)) :
  let mask := map (map (λ x : Z, if (x =? pad_id)%Z then 0%Z else 1%Z)) G in
  zip_with true_divide
    (map Numpy.sum_list
       (zip_with (zip_with (λ (b : bool) (m : Z), (Z.b2z b * m)%Z))
          (zip_with (zip_with (λ a b : Z, (a =? b)%Z)) P G) mask))
    (map Numpy.sum_list mask)
  = zip_with (λ p g,
      let mask := map (λ x : Z, if (x =? pad_id)%Z then 0%Z else 1%Z) g in
      let hits := zip_with (λ a b : Z, Z.b2z (a =? b)%Z) p g in
      true_divide (Numpy.sum_list (zip_with Z.mul hits mask)) (Numpy.sum_list mask)) P G.
Proof.
  simpl. revert G. induction P as [|p P IH]; intros [|g G]; simpl; try done.
  by rewrite IH, hits_row.
Qed.

Lemma bind_Return {A B} (a : A) (f : A → outcome B) : Return a ≫= f = f a.
Proof. done. Qed.

(** Where the labels are at least as long as the predictions, the code
    computes what the specification describes. *)
Lemma sequence_accuracy_refines_spec (predictions labels : Numpy.ndarray Z) (pad_token_id : Z) :
  Numpy.well_shaped predictions → Numpy.well_shaped labels →
  Numpy.shape0 labels = Numpy.shape0 predictions →
  Numpy.shape1 predictions ≤ Numpy.shape1 labels →
  sequence_accuracy predictions labels pad_token_id
  = Return (spec_sequence_accuracy predictions labels pad_token_id).
Proof.
  intros Hp Hl Hb Hle. unfold sequence_accuracy, spec_sequence_accuracy.
  rewrite Hb, Nat.eqb_refl. unfold py_assert. rewrite bind_Return. cbv zeta.
  set (L := Numpy.shape1 predictions `max` Numpy.shape1 labels).
  replace (L - Numpy.shape1 labels) with 0 by lia.
  pose proof (well_shaped_pad predictions (L - Numpy.shape1 predictions) Hp) as Hp'.
  pose proof (well_shaped_pad labels 0 Hl) as Hl'.
  set (P' := Numpy.pad predictions (L - Numpy.shape1 predictions)) in *.
  set (G' := Numpy.pad labels 0) in *.
  set (V := Numpy.add_scalar (Numpy.zeros_like labels) pad_token_id).
  assert (HV : Numpy.well_shaped V) by (by do 2 apply well_shaped_amap).
  assert (Hs1 : Numpy.shape1 P' = Numpy.shape1 G') by (simpl; lia).
  assert (Hs0 : Numpy.shape0 P' = Numpy.shape0 G') by (simpl; lia).
  rewrite (binop_well_shaped _ labels V) by done. rewrite bind_Return.
  rewrite (binop_well_shaped _ P' G') by done. rewrite bind_Return.
  rewrite binop_well_shaped; [|by apply (well_shaped_zip _ P' G')| |simpl; lia..].
  2:{ apply well_shaped_amap. by apply (well_shaped_zip _ labels V). }
  rewrite bind_Return.
  unfold Numpy.sum_axis1, Numpy.binop1, Numpy.astype_int32, G'. simpl Numpy.data.
  replace (map (λ r : list Z, r ++ []) (Numpy.data labels)) with (Numpy.data labels)
    by (symmetry; apply pad_zero_data).
  rewrite mask_rows.
  destruct Hp as [Hp0 _], Hl as [Hl0 _].
  rewrite !length_map, length_zip_with, length_zip_with, !length_map, Hp0, Hl0.
  replace ((Numpy.shape0 predictions `min` Numpy.shape0 labels) `min` Numpy.shape0 labels)
    with (Numpy.shape0 labels) by lia.
  rewrite broadcast_dim_same, bind_Return.
  rewrite !stretch_id.
  - f_equal. apply accuracy_rows.
  - by rewrite !length_map.
  - rewrite length_map, length_zip_with, length_zip_with, !length_map. lia.
Qed.

(** ** Gold sequences made of padding only *)

Lemma sum_list_zeros (h : list Z) (n : nat) :
  Numpy.sum_list (zip_with Z.mul h (replicate n 0%Z)) = 0%Z.
Proof.
  revert n. induction h as [|a h IH]; intros [|n]; simpl; try done.
  rewrite IH. lia.
Qed.

Lemma sum_list_replicate_zero (n : nat) : Numpy.sum_list (replicate n 0%Z) = 0%Z.
Proof. induction n as [|n IH]; simpl; [done|]. by rewrite IH. Qed.

Lemma mask_all_pad (pad_id : Z) (g : list Z) :
  Forall (λ x, x = pad_id) g →
  map (λ x : Z, if (x =? pad_id)%Z then 0%Z else 1%Z) g = replicate (length g) 0%Z.
Proof.
  induction 1 as [|x g -> _ IH]; simpl; [done|]. by rewrite Z.eqb_refl, IH.
Qed.

(** Where the call gets as far as the division (the labels are at least as
    long as the predictions), an example whose gold row holds nothing but
    [pad_token_id] gets [0 / 0], which is [nan]. *)
Lemma sequence_accuracy_all_pad_nan (predictions labels : Numpy.ndarray Z)
    (pad_token_id : Z) (i : nat) (g : list Z) :
  Numpy.well_shaped predictions → Numpy.well_shaped labels →
  Numpy.shape0 labels = Numpy.shape0 predictions →
  Numpy.shape1 predictions ≤ Numpy.shape1 labels →
  Numpy.data labels !! i = Some g →
  Forall (λ x, x = pad_token_id) g →
  ∃ acc x, sequence_accuracy predictions labels pad_token_id = Return acc
         ∧ acc !! i = Some x ∧ PrimFloat.is_nan x = true.
Proof.
  intros Hp Hl Hb Hle Hg Hpad.
  rewrite sequence_accuracy_refines_spec by done.
  destruct (lookup_lt_is_Some_2 (Numpy.data predictions) i) as [p Hpi].
  { destruct Hp as [-> _], Hl as [Hl0 _]. rewrite <- Hb, <- Hl0.
    by eapply lookup_lt_Some. }
  eexists _, _. split; [done|]. unfold spec_sequence_accuracy.
  replace (Numpy.shape1 predictions `max` Numpy.shape1 labels - Numpy.shape1 labels)
    with 0 by lia.
  rewrite pad_zero_data. simpl Numpy.data. split.
  - rewrite lookup_zip_with, list_lookup_fmap, Hpi, Hg. done.
  - cbv zeta. rewrite mask_all_pad, sum_list_zeros, sum_list_replicate_zero by done.
    done.
Qed.

(** C8: an all-padding gold row next to longer predictions. The call never
    reaches the division: it raises the broadcasting error of the mask,
    where the specification's scorer yields [nan]. *)
Theorem sequence_accuracy_all_pad_longer_predictions :
  sequence_accuracy (Numpy.of_rows 3 [[1; 2; 3]]%Z) (Numpy.of_rows 2 [[0; 0]]%Z) 0
  = Raise Numpy.broadcast_error
  ∧ spec_sequence_accuracy (Numpy.of_rows 3 [[1; 2; 3]]%Z) (Numpy.of_rows 2 [[0; 0]]%Z) 0
    = [nan].
Proof. split; reflexivity. Qed.

(** C1: the mask is taken from the labels before they are padded. With
    predictions longer than two or more label columns the call raises where
    the specification's scorer returns an accuracy; with a single label
    column the mask is broadcast and the result leaves [0, 1]. *)
Theorem sequence_accuracy_mask_before_padding :
  (sequence_accuracy (Numpy.of_rows 3 [[5; 6; 7]]%Z) (Numpy.of_rows 2 [[5; 6]]%Z) 0
   = Raise Numpy.broadcast_error
   ∧ spec_sequence_accuracy (Numpy.of_rows 3 [[5; 6; 7]]%Z) (Numpy.of_rows 2 [[5; 6]]%Z) 0
     = [1%float])
  ∧ (sequence_accuracy (Numpy.of_rows 3 [[5; 0; 0]]%Z) (Numpy.of_rows 1 [[5]]%Z) 1
     = Return [3%float]
     ∧ spec_sequence_accuracy (Numpy.of_rows 3 [[5; 0; 0]]%Z) (Numpy.of_rows 1 [[5]]%Z) 1
       = [1%float]).
Proof. repeat split; reflexivity. Qed.

(** The two worked examples of the specification. *)
Example sequence_accuracy_example_full :
  sequence_accuracy (Numpy.of_rows 4 [[5; 6; 7; 0]]%Z) (Numpy.of_rows 4 [[5; 6; 0; 0]]%Z) 0
  = Return [1%float].
Proof. reflexivity. Qed.

Example sequence_accuracy_example_half :
  sequence_accuracy (Numpy.of_rows 3 [[5; 9; 0]]%Z) (Numpy.of_rows 3 [[5; 6; 0]]%Z) 0
  = Return [0.5%float].
Proof. reflexivity. Qed.

(** With labels at least as long as the predictions, [sequence_accuracy]
    returns the accuracies of the specification: the mask of the labels,
    and [correct / length] for every example. *)
Theorem sequence_accuracy_short_predictions (predictions labels : Numpy.ndarray Z)
    (pad_token_id : Z) :
  Numpy.well_shaped predictions → Numpy.well_shaped labels →
  Numpy.shape0 labels = Numpy.shape0 predictions →
  Numpy.shape1 predictions ≤ Numpy.shape1 labels →
  sequence_accuracy predictions labels pad_token_id
  = Return (spec_sequence_accuracy predictions labels pad_token_id).
Proof. apply sequence_accuracy_refines_spec. Qed.

Lemma well_shaped_of_rows {A} (n1 : nat) (rows : list (list A)) :
  Forall (λ r, length r = n1) rows → Numpy.well_shaped (Numpy.of_rows n1 rows).
Proof. by split. Qed.

Lemma sequence_accuracy_short_predictions_witness :
  sequence_accuracy (Numpy.of_rows 2 [[5; 1]; [7; 7]]%Z) (Numpy.of_rows 3 [[5; 5; 0]; [7; 7; 0]]%Z) 0
  = Return (spec_sequence_accuracy (Numpy.of_rows 2 [[5; 1]; [7; 7]]%Z)
              (Numpy.of_rows 3 [[5; 5; 0]; [7; 7; 0]]%Z) 0).
Proof.
  apply sequence_accuracy_short_predictions.
  - apply well_shaped_of_rows. repeat constructor.
  - apply well_shaped_of_rows. repeat constructor.
  - reflexivity.
  - simpl. lia.
Defined.

(** With labels at least as long as the predictions, an example whose gold
    row holds only [pad_token_id] gets the accuracy [nan]. *)
Theorem sequence_accuracy_degenerate_gold (predictions labels : Numpy.ndarray Z)
    (pad_token_id : Z) (i : nat) (g : list Z) :
  Numpy.well_shaped predictions → Numpy.well_shaped labels →
  Numpy.shape0 labels = Numpy.shape0 predictions →
  Numpy.shape1 predictions ≤ Numpy.shape1 labels →
  Numpy.data labels !! i = Some g →
  Forall (λ x, x = pad_token_id) g →
  ∃ acc x, sequence_accuracy predictions labels pad_token_id = Return acc
         ∧ acc !! i = Some x ∧ PrimFloat.is_nan x = true.
Proof. apply sequence_accuracy_all_pad_nan. Qed.

Lemma sequence_accuracy_degenerate_gold_witness :
  ∃ acc x, sequence_accuracy (Numpy.of_rows 2 [[5; 1]; [7; 7]]%Z)
             (Numpy.of_rows 3 [[5; 5; 0]; [0; 0; 0]]%Z) 0 = Return acc
         ∧ acc !! 1 = Some x ∧ PrimFloat.is_nan x = true.
Proof.
  apply (sequence_accuracy_degenerate_gold _ _ 0%Z 1 [0; 0; 0]%Z).
  - apply well_shaped_of_rows. repeat constructor.
  - apply well_shaped_of_rows. repeat constructor.
  - reflexivity.
  - simpl. lia.
  - reflexivity.
  - repeat constructor.
Defined.

(** ** Exact matches by condition *)

Lemma take_indices_cons {A} (a : list A) (i : nat) (idx : list nat) (x : A) (xs : list A) :
  a !! i = Some x → take_indices a idx = Return xs →
  take_indices a (i :: idx) = Return (x :: xs).
Proof. unfold take_indices. simpl. by intros -> ->. Qed.

Lemma count_true_total (a : list bool) : count_true a = Z.of_nat (total_matches a).
Proof.
  unfold count_true, total_matches. induction a as [|[] a IH]; [done|..].
  - rewrite filter_cons_True by done. simpl. rewrite IH. lia.
  - rewrite filter_cons_False by done. simpl. rewrite IH. lia.
Qed.

(** The positions of a condition, counted from [j], select its flags. *)
Lemma take_condition_indices (c : string) (em : list bool) (cl : list string) (j : nat) :
  length cl ≤ length (drop j em) →
  take_indices em (filter (λ p, p.2 = c) (imap (λ i x, (j + i, x)) cl)).*1
  = Return (group_flags (drop j em) cl c).
Proof.
  revert j. induction cl as [|x cl IH]; intros j Hlen; [done|].
  destruct (drop j em) as [|b em'] eqn:Hd; [simpl in Hlen; lia|].
  assert (Hj : em !! j = Some b).
  { rewrite <- (Nat.add_0_r j), <- lookup_drop, Hd. done. }
  assert (Hd' : drop (S j) em = em').
  { erewrite drop_S in Hd by done. by injection Hd. }
  assert (IH' : take_indices em (filter (λ p, p.2 = c) (imap (λ i x, (S j + i, x)) cl)).*1
                = Return (group_flags em' cl c)).
  { rewrite <- Hd'. apply IH. rewrite Hd'. simpl in Hlen. lia. }
  simpl imap. rewrite (imap_ext _ (λ i x, (S j + i, x))); [|intros; simpl; f_equal; lia].
  unfold group_flags. simpl zip. rewrite Nat.add_0_r.
  destruct (decide (x = c)) as [->|Hne].
  - rewrite !filter_cons_True by done. simpl. by apply take_indices_cons.
  - rewrite !filter_cons_False by done. done.
Qed.

Lemma take_condition_indices_all (c : string) (em : list bool) (cl : list string) :
  length cl ≤ length em →
  take_indices em (condition_indices cl c) = Return (group_flags em cl c).
Proof. intros H. apply (take_condition_indices c em cl 0). by rewrite drop_0. Qed.

Lemma condition_indices_length (cl : list string) (c : string) :
  length (condition_indices cl c) = group_size cl c.
Proof.
  unfold condition_indices, group_size. rewrite length_fmap.
  change (λ (i : nat) (x : string), (i, x)) with (λ (i : nat) (x : string), (0 + i, x)).
  generalize 0. induction cl as [|x cl IH]; intros j; [done|]. simpl imap.
  rewrite (imap_ext _ (λ i x, (S j + i, x))); [|intros; simpl; f_equal; lia].
  destruct (decide (x = c)) as [->|Hne].
  - rewrite !filter_cons_True by done. cbn [length]. by rewrite IH.
  - rewrite !filter_cons_False by done. apply IH.
Qed.

Lemma count_true_group (em : list bool) (cl : list string) (c : string) :
  count_true (group_flags em cl c) = Z.of_nat (group_matches em cl c).
Proof.
  unfold group_flags, group_matches, count_true. generalize (zip cl em). intros l.
  induction l as [|[x b] l IH]; [done|].
  destruct (decide (x = c)) as [->|Hne].
  - rewrite (filter_cons_True (λ p, p.1 = c)) by done. cbn [fmap list_fmap map Numpy.sum_list foldr snd].
    fold (Numpy.sum_list (map Z.b2z (filter (λ p, p.1 = c) l).*2)). rewrite IH.
    destruct b.
    + rewrite filter_cons_True by done. simpl. lia.
    + rewrite filter_cons_False by (simpl; intros [_ ?]; done). simpl. lia.
  - rewrite (filter_cons_False (λ p, p.1 = c)) by done. rewrite IH.
    rewrite filter_cons_False by (simpl; intros [? _]; done). done.
Qed.

(** The ratio the loop stores for a condition. *)
Lemma by_condition_loop_lookup (em : list bool) (cl conds : list string)
    (acc : gmap string float) :
  length cl ≤ length em →
  ∃ d, by_condition_loop em cl conds acc = Return d
     ∧ ∀ c, d !! c =
         if decide (c ∈ conds)
         then Some (true_divide (Z.of_nat (group_matches em cl c))
                                (Z.of_nat (group_size cl c)))
         else acc !! c.
Proof.
  intros Hlen. revert acc. induction conds as [|c0 conds IH]; intros acc.
  - exists acc. split; [done|]. intros c. by rewrite decide_False by apply not_elem_of_nil.
  - simpl. rewrite take_condition_indices_all by done. rewrite bind_Return.
    destruct (IH (<[c0 := true_divide (count_true (group_flags em cl c0))
                            (Z.of_nat (length (condition_indices cl c0)))]> acc))
      as (d & Hd & Hlook).
    exists d. split; [done|]. intros c. rewrite Hlook.
    destruct (decide (c ∈ conds)) as [Hin|Hnin].
    + rewrite decide_True by (by right). done.
    + destruct (decide (c = c0)) as [->|Hne].
      * rewrite decide_True by (by left).
        by rewrite lookup_insert_eq, count_true_group, condition_indices_length.
      * rewrite decide_False by (by intros [?|?]%elem_of_cons).
        by rewrite lookup_insert_ne.
Qed.

(** C5, amended: every condition label other than the key ["overall"] is
    mapped to (exact matches in its group) / (group size), the key
    ["overall"] to (all exact matches) / (all examples), and there is no
    other key; for flags [True, False, True, True] and conditions
    ["a", "a", "b", "b"] the result is {a: 0.5, b: 1.0, overall: 0.75}. *)
Theorem exact_match_acc_by_condition_groups :
  (∀ (exact_matches : list bool) (condition_list : list string),
     length condition_list ≤ length exact_matches →
     ∃ d, exact_match_acc_by_condition exact_matches condition_list = Return d
        ∧ d !! "overall"
          = Some (true_divide (Z.of_nat (total_matches exact_matches))
                              (Z.of_nat (length exact_matches)))
        ∧ (∀ c, c ∈ condition_list → c ≠ "overall" →
             d !! c = Some (true_divide
                              (Z.of_nat (group_matches exact_matches condition_list c))
                              (Z.of_nat (group_size condition_list c))))
        ∧ (∀ c, c ∉ condition_list → c ≠ "overall" → d !! c = None))
  ∧ exact_match_acc_by_condition [true; false; true; true] ["a"; "a"; "b"; "b"]
    = Return {[ "a" := 0.5%float; "b" := 1%float; "overall" := 0.75%float ]}.
Proof.
  split; [|reflexivity].
  intros em cl Hlen. unfold exact_match_acc_by_condition.
  destruct (by_condition_loop_lookup em cl (elements (list_to_set cl : gset string)) ∅ Hlen)
    as (d & -> & Hlook).
  rewrite bind_Return. eexists. split; [done|]. split; [|split].
  - by rewrite lookup_insert_eq, count_true_total.
  - intros c Hin Hne. rewrite lookup_insert_ne by done. rewrite Hlook.
    rewrite decide_True; [done|]. by rewrite elem_of_elements, elem_of_list_to_set.
  - intros c Hnin Hne. rewrite lookup_insert_ne by done. rewrite Hlook.
    rewrite decide_False; [done|]. by rewrite elem_of_elements, elem_of_list_to_set.
Qed.

Lemma exact_match_acc_by_condition_groups_witness :
  length ["x"; "y"; "x"] ≤ length [true; true; false] ∧
  ∃ d, exact_match_acc_by_condition [true; true; false] ["x"; "y"; "x"] = Return d
     ∧ d !! "overall"
       = Some (true_divide (Z.of_nat (total_matches [true; true; false]))
                           (Z.of_nat (length [true; true; false])))
     ∧ (∀ c, c ∈ ["x"; "y"; "x"] → c ≠ "overall" →
          d !! c = Some (true_divide
                           (Z.of_nat (group_matches [true; true; false] ["x"; "y"; "x"] c))
                           (Z.of_nat (group_size ["x"; "y"; "x"] c))))
     ∧ (∀ c, c ∉ ["x"; "y"; "x"] → c ≠ "overall" → d !! c = None).
Proof.
  split; [simpl; lia|].
  apply (proj1 exact_match_acc_by_condition_groups). simpl. lia.
Defined.

(** The claim as stated fails for a condition that is itself called
    "overall": its entry is overwritten by the overall ratio. *)
Lemma exact_match_acc_by_condition_overall_label :
  ∃ d, exact_match_acc_by_condition [true; false] ["overall"; "b"] = Return d
     ∧ d !! "overall" = Some 0.5%float
     ∧ true_divide (Z.of_nat (group_matches [true; false] ["overall"; "b"] "overall"))
                   (Z.of_nat (group_size ["overall"; "b"] "overall")) = 1%float
     ∧ d !! "overall"
       ≠ Some (true_divide (Z.of_nat (group_matches [true; false] ["overall"; "b"] "overall"))
                           (Z.of_nat (group_size ["overall"; "b"] "overall"))).
Proof.
  eexists. split; [reflexivity|]. split; [reflexivity|]. split; [reflexivity|].
  intros H. apply (f_equal (λ o, match o with
                                 | Some x => PrimFloat.eqb x 0.5%float
                                 | None => false
                                 end)) in H.
  vm_compute in H. discriminate.
Qed.

(** ** Registering new tokens *)

Lemma add_token_fresh (vocab : gmap string nat) (w : string) :
  vocab !! w = None → Tokenizer.add_token vocab w = <[w := size vocab]> vocab.
Proof. unfold Tokenizer.add_token. by intros ->. Qed.

Lemma add_token_known (vocab : gmap string nat) (w : string) (i : nat) :
  vocab !! w = Some i → Tokenizer.add_token vocab w = vocab.
Proof. unfold Tokenizer.add_token. by intros ->. Qed.

Lemma add_new_vocabs_cons (vocab : gmap string nat) (w : string) (ws : list string) :
  add_new_vocabs vocab (w :: ws) = add_new_vocabs (Tokenizer.add_token vocab w) ws.
Proof. done. Qed.

(** What the loop does with tokens that are new to the vocabulary. *)
Lemma add_new_vocabs_fresh (new_vocabs : list string) (vocab : gmap string nat) :
  NoDup new_vocabs →
  (∀ w, w ∈ new_vocabs → vocab !! w = None) →
  size (add_new_vocabs vocab new_vocabs) = size vocab + length new_vocabs
  ∧ (∀ j w, new_vocabs !! j = Some w →
       add_new_vocabs vocab new_vocabs !! w = Some (size vocab + j))
  ∧ (∀ w, w ∉ new_vocabs → add_new_vocabs vocab new_vocabs !! w = vocab !! w).
Proof.
  revert vocab. induction new_vocabs as [|w ws IH]; intros vocab Hnd Hnew.
  - split; [simpl; lia|]. split; [by intros j w ?|done].
  - apply NoDup_cons in Hnd as [Hw Hnd].
    assert (Hfresh : vocab !! w = None) by (apply Hnew; by left).
    rewrite add_new_vocabs_cons, add_token_fresh by done.
    destruct (IH (<[w := size vocab]> vocab) Hnd) as (Hsize & Hids & Hold).
    { intros w' Hw'. rewrite lookup_insert_ne by (intros ->; done).
      apply Hnew. by right. }
    rewrite map_size_insert_None in Hsize, Hids by done.
    split; [simpl; lia|]. split.
    + intros [|j] w' Hj; simpl in Hj.
      * injection Hj as <-. rewrite Hold by done. by rewrite lookup_insert_eq, Nat.add_0_r.
      * rewrite (Hids j w' Hj). f_equal. lia.
    + intros w' Hw'. apply not_elem_of_cons in Hw' as [Hne Hw'].
      rewrite Hold by done. by rewrite lookup_insert_ne.
Qed.

(** C4: for a vocabulary [V] and a duplicate-free list [T] of tokens that
    are new to [V], the loop gives the tokens of [T] the ids
    [|V|, |V| + 1, ...] in input order, leaves the ids of [V] alone, and the
    resulting vocabulary has [|V| + |T|] entries. *)
Theorem add_new_vocabs_contiguous_ids (vocab : gmap string nat) (new_vocabs : list string) :
  NoDup new_vocabs →
  (∀ w, w ∈ new_vocabs → vocab !! w = None) →
  added_ids vocab new_vocabs = Some <$> seq (Tokenizer.len vocab) (length new_vocabs)
  ∧ Tokenizer.len (add_new_vocabs vocab new_vocabs)
    = Tokenizer.len vocab + length new_vocabs
  ∧ (∀ w i, vocab !! w = Some i → add_new_vocabs vocab new_vocabs !! w = Some i).
Proof.
  intros Hnd Hnew.
  destruct (add_new_vocabs_fresh new_vocabs vocab Hnd Hnew) as (Hsize & Hids & Hold).
  split; [|split; [done|]].
  - unfold added_ids, Tokenizer.len. apply list_eq. intros j.
    rewrite !list_lookup_fmap.
    destruct (new_vocabs !! j) as [w|] eqn:Hj; simpl.
    + rewrite (Hids j w Hj). rewrite lookup_seq_lt; [done|]. by eapply lookup_lt_Some.
    + rewrite lookup_seq_ge; [done|]. by apply lookup_ge_None.
  - intros w i Hw. rewrite Hold; [done|]. intros Hin. specialize (Hnew w Hin). congruence.
Qed.

Lemma add_new_vocabs_contiguous_ids_witness :
  NoDup ["x"; "y"] ∧ (∀ w, w ∈ ["x"; "y"] → Demo.vocab3 !! w = None) ∧
  added_ids Demo.vocab3 ["x"; "y"] = Some <$> seq (Tokenizer.len Demo.vocab3) (length ["x"; "y"])
  ∧ Tokenizer.len (add_new_vocabs Demo.vocab3 ["x"; "y"])
    = Tokenizer.len Demo.vocab3 + length ["x"; "y"]
  ∧ (∀ w i, Demo.vocab3 !! w = Some i → add_new_vocabs Demo.vocab3 ["x"; "y"] !! w = Some i).
Proof.
  assert (Hnd : NoDup ["x"; "y"]).
  { apply NoDup_cons. split; [|apply NoDup_singleton].
    intros Hx%list_elem_of_singleton. discriminate. }
  assert (Hnew : ∀ w, w ∈ ["x"; "y"] → Demo.vocab3 !! w = None).
  { intros w Hw. apply elem_of_cons in Hw as [->|Hw]; [reflexivity|].
    apply elem_of_cons in Hw as [->|Hw]; [reflexivity|]. by apply elem_of_nil in Hw. }
  split; [exact Hnd|]. split; [exact Hnew|].
  exact (add_new_vocabs_contiguous_ids Demo.vocab3 ["x"; "y"] Hnd Hnew).
Defined.

(** ** Sampling without replacement *)

(** The transposition of positions [i] and [j]. *)
Lemma swap_lookup {A} (x : list A) (i j k : nat) :
  i < length x → j < length x →
  swap x i j !! k
  = x !! (if decide (k = i) then j else if decide (k = j) then i else k).
Proof.
  intros Hi Hj. unfold swap.
  destruct (lookup_lt_is_Some_2 x i Hi) as [a Ha].
  destruct (lookup_lt_is_Some_2 x j Hj) as [b Hb].
  rewrite Ha, Hb, !list_lookup_insert, length_insert.
  destruct (decide (k = i)) as [->|Hki].
  - by rewrite decide_True.
  - rewrite decide_False by (intros [? _]; congruence).
    destruct (decide (k = j)) as [->|Hkj].
    + by rewrite decide_True.
    + by rewrite decide_False by (intros [? _]; congruence).
Qed.

Lemma swap_length {A} (x : list A) (i j : nat) : length (swap x i j) = length x.
Proof.
  unfold swap. destruct (x !! i), (x !! j); try done. by rewrite !length_insert.
Qed.

Lemma swap_Permutation {A} (x : list A) (i j : nat) : swap x i j ≡ₚ x.
Proof.
  destruct (decide (i < length x ∧ j < length x)) as [[Hi Hj]|Hout].
  - apply Permutation_inj. split; [apply swap_length|].
    exists (λ k, if decide (k = i) then j else if decide (k = j) then i else k).
    split; [|intros k; by apply swap_lookup].
    intros k1 k2 Heq. repeat case_decide; congruence.
  - unfold swap. destruct (x !! i) eqn:Ei, (x !! j) eqn:Ej; try done.
    apply lookup_lt_Some in Ei, Ej. lia.
Qed.

Section Shuffle.
Context {np_state : Type}.
Variable random_interval : np_state → nat → nat * np_state.

Lemma shuffle_Permutation (i : nat) (x : list nat) (s : np_state) :
  (shuffle random_interval i x s).1 ≡ₚ x.
Proof.
  revert x s. induction i as [|i IH]; intros x s; [done|]. simpl.
  destruct (random_interval s (S i)) as [j s1]. rewrite IH. apply swap_Permutation.
Qed.

Lemma permutation_Permutation (n : nat) (s : np_state) :
  (permutation random_interval n s).1 ≡ₚ seq 0 n.
Proof. apply shuffle_Permutation. Qed.

(** The first [k] items of a permutation of [0..n-1]: [k] distinct
    positions below [n]. *)
Lemma permutation_prefix (n k : nat) (s : np_state) :
  k ≤ n →
  let idx := take k (permutation random_interval n s).1 in
  NoDup idx ∧ length idx = k ∧ Forall (λ i, i < n) idx.
Proof.
  intros Hk idx. pose proof (permutation_Permutation n s) as Hperm.
  split; [|split].
  - eapply sublist_NoDup; [|apply sublist_take]. rewrite Hperm. apply NoDup_seq.
  - unfold idx. rewrite length_take_le; [done|].
    rewrite Hperm, length_seq. done.
  - apply Forall_forall. intros i Hi. apply subseteq_take in Hi.
    rewrite Hperm in Hi. apply elem_of_seq in Hi. lia.
Qed.

End Shuffle.

Lemma take_indices_in_range {A} (a : list A) (idx : list nat) :
  Forall (λ i, i < length a) idx →
  ∃ xs, take_indices a idx = Return xs
      ∧ length xs = length idx
      ∧ ∀ j i, idx !! j = Some i → xs !! j = a !! i.
Proof.
  induction 1 as [|i idx Hi _ (xs & Hxs & Hlen & Hlook)].
  - exists []. by split; [|split].
  - destruct (lookup_lt_is_Some_2 a i Hi) as [x Hx].
    exists (x :: xs). split; [by apply take_indices_cons|]. split; [simpl; lia|].
    intros [|j] i' Hj; simpl in *; [by injection Hj as <-|by apply Hlook].
Qed.

(** Looking positions up in [range(0, n)] gives them back. *)
Lemma take_indices_seq (n : nat) (idx : list nat) :
  Forall (λ i, i < n) idx → take_indices (seq 0 n) idx = Return idx.
Proof.
  induction 1 as [|i idx Hi _ IH]; [done|].
  apply take_indices_cons; [|done]. by rewrite lookup_seq_lt.
Qed.

Lemma draw_length {S A} (gen : S → A * S) (k : nat) (s : S) :
  length (draw gen k s).1 = k.
Proof.
  revert s. induction k as [|k IH]; intros s; [done|]. simpl.
  destruct (gen s) as [x s1]. specialize (IH s1).
  destruct (draw gen k s1) as [xs s2]. simpl in *. by rewrite IH.
Qed.

Lemma torch_stack_cons {A} (x : A) (xs : list A) : torch_stack (x :: xs) = Return (x :: xs).
Proof. done. Qed.

(** ** Initialising the rows of the new tokens *)

Section VocabExpansionProperties.

Context {row np_state torch_state mat dist : Type}.
Variable random_interval : np_state → nat → nat * np_state.
Variable init_weight : torch_state → row * torch_state.
Variable torch_mean : list row → row.
Variable centered_gram : list row → row → mat.
Variable mat_div : mat → nat → mat.
Variable mat_scale : float → mat → mat.
Variable MultivariateNormal : row → mat → outcome dist.
Variable dist_sample : dist → torch_state → row * torch_state.

Local Abbreviation store := (store (row := row) (np_state := np_state) (torch_state := torch_state)).
Local Abbreviation initialize := (initialize_new_embeddings random_interval torch_mean centered_gram
  mat_div mat_scale MultivariateNormal dist_sample).
Local Abbreviation avg := (init_avg torch_mean centered_gram mat_div mat_scale MultivariateNormal
  dist_sample (np_state := np_state)).
Local Abbreviation existing_word := (init_existing_word random_interval (row := row)
  (torch_state := torch_state)).
Local Abbreviation choice := (random_choice random_interval (row := row) (torch_state := torch_state)).
Local Abbreviation resize := (resize_token_embeddings init_weight (np_state := np_state)).

(** The assignment to the last [k >= 1] rows leaves the rows before them. *)
Lemma assign_from_neg_frame (k : nat) (new_emb : list row) (st : store) :
  1 ≤ k →
  let st' := (assign_from_neg k new_emb st).2 in
  tokenizer st' = tokenizer st
  ∧ length (weight st') = length (weight st)
  ∧ ∀ i, i < length (weight st) - k → weight st' !! i = weight st !! i.
Proof.
  intros Hk. unfold assign_from_neg, neg_index.
  rewrite (proj2 (Nat.eqb_neq k 0)) by lia.
  set (n := length (weight st)).
  destruct (length new_emb =? n - (n - k)) eqn:Hlen.
  - apply Nat.eqb_eq in Hlen. simpl. split; [done|]. split.
    + rewrite length_app, length_take_le by lia. lia.
    + intros i Hi. rewrite lookup_app_l by (rewrite length_take_le; lia).
      by rewrite lookup_take_lt.
  - destruct new_emb as [|r [|r' new_emb]]; simpl; [done| |done].
    split; [done|]. split.
    + rewrite length_app, length_take_le, length_replicate by lia. lia.
    + intros i Hi. rewrite lookup_app_l by (rewrite length_take_le; lia).
      by rewrite lookup_take_lt.
Qed.

Lemma assign_from_neg_exact (k : nat) (new_emb : list row) (st : store) :
  1 ≤ k → k ≤ length (weight st) → length new_emb = k →
  assign_from_neg k new_emb st
  = (Return tt, set_weight (take (length (weight st) - k) (weight st) ++ new_emb) st).
Proof.
  intros Hk Hle Hlen. unfold assign_from_neg, neg_index.
  rewrite (proj2 (Nat.eqb_neq k 0)) by lia.
  by rewrite (proj2 (Nat.eqb_eq _ _)) by lia.
Qed.

Lemma choice_store (a : list nat) (size : nat) (st : store) :
  tokenizer (choice a size st).2 = tokenizer st ∧ weight (choice a size st).2 = weight st.
Proof. unfold random_choice. by repeat case_match. Qed.

Lemma choice_zero (a : list nat) (st : store) :
  ∃ s, choice a 0 st = (Return [], set_np_random s st).
Proof.
  unfold random_choice. rewrite andb_false_r. simpl.
  destruct (permutation _ _ _) as [perm s]. by exists s.
Qed.

(** Whatever the method and however the call ends, it leaves the
    tokenizer, the number of rows and every row before the last [k]. *)
Lemma initialize_frame (vocab_init_method : option string) (k : nat) (st : store) :
  let st' := (initialize vocab_init_method k st).2 in
  tokenizer st' = tokenizer st
  ∧ length (weight st') = length (weight st)
  ∧ ∀ i, i < length (weight st) - k → weight st' !! i = weight st !! i.
Proof.
  unfold initialize_new_embeddings. repeat case_decide; [| |done].
  - unfold init_avg, mbind, M_bind, get_weight, lift. simpl.
    destruct (MultivariateNormal _ _) as [d|e]; [|done].
    pose proof (draw_length (dist_sample d) k (torch_random st)) as Hlen.
    destruct (draw (dist_sample d) k (torch_random st)) as [xs s]. simpl in Hlen.
    destruct xs as [|x xs]; [done|]. rewrite torch_stack_cons.
    apply (assign_from_neg_frame k (x :: xs) (set_torch_random s st)). simpl in Hlen. lia.
  - unfold init_existing_word, mbind, M_bind, get_weight, lift, len_tokenizer.
    destruct (choice_store (seq 0 (Tokenizer.len (tokenizer st) - k)) k st) as [Ht Hw].
    destruct (random_choice _ _ _ _) as [[rand_indices|e] st1] eqn:Hc;
      simpl in Ht, Hw; [|simpl; by rewrite Ht, Hw].
    rewrite <- Ht, <- Hw.
    destruct (take_indices (weight st1) rand_indices) as [rows|e] eqn:Hrows; [|done].
    destruct rows as [|r rows]; [done|]. rewrite torch_stack_cons.
    destruct (decide (k = 0)) as [->|Hk0]; [|apply assign_from_neg_frame; lia].
    (* no position is drawn for k = 0, so there is no row to stack *)
    destruct (choice_zero (seq 0 (Tokenizer.len (tokenizer st) - 0)) st) as [s Hz].
    rewrite Hz in Hc. injection Hc as <- <-. discriminate.
Qed.

Lemma resize_refused (new_num_tokens : nat) (st : store) :
  new_num_tokens < length (weight st) → new_num_tokens < Tokenizer.len (tokenizer st) →
  ∃ msg, resize new_num_tokens st = (Raise (ShapeError msg), st).
Proof.
  intros Hrows Hlen. unfold resize_token_embeddings.
  rewrite (proj2 (Nat.ltb_lt _ _) Hrows), (proj2 (Nat.ltb_lt _ _) Hlen). by eexists.
Qed.

(** A resize that cuts no row of a token returns, with the rows that remain
    as they were. *)
Lemma resize_weight (new_num_tokens : nat) (st : store) :
  length (weight st) ≤ new_num_tokens ∨ Tokenizer.len (tokenizer st) ≤ new_num_tokens →
  ∃ st', resize new_num_tokens st = (Return tt, st')
       ∧ tokenizer st' = tokenizer st
       ∧ length (weight st') = new_num_tokens
       ∧ ∀ i, i < length (weight st) → i < new_num_tokens → weight st' !! i = weight st !! i.
Proof.
  intros Hfits. unfold resize_token_embeddings.
  replace ((new_num_tokens <? length (weight st))
           && (new_num_tokens <? Tokenizer.len (tokenizer st))) with false.
  2:{ symmetry. apply andb_false_iff.
      destruct Hfits; [left|right]; by apply Nat.ltb_ge. }
  pose proof (draw_length init_weight (new_num_tokens - length (weight st)) (torch_random st))
    as Hlen.
  destruct (draw _ _ _) as [fresh s]. simpl in *. eexists. split; [done|]. simpl.
  split; [done|]. split.
  - rewrite length_app, length_take, Hlen. lia.
  - intros i Hi Hi'. rewrite lookup_app_l by (rewrite length_take; lia).
    by rewrite lookup_take_lt.
Qed.

Lemma choice_run (n k : nat) (st : store) :
  k ≤ n →
  ∃ rand_indices s,
    choice (seq 0 n) k st = (Return rand_indices, set_np_random s st)
    ∧ NoDup rand_indices ∧ length rand_indices = k ∧ Forall (λ r, r < n) rand_indices.
Proof.
  intros Hk. unfold random_choice. rewrite length_seq.
  destruct (permutation_prefix random_interval n k (np_random st) Hk) as (Hnd & Hlen & Hlt).
  destruct (permutation random_interval n (np_random st)) as [perm s]. simpl in *.
  exists (take k perm), s.
  replace ((n =? 0) && negb (k =? 0)) with false.
  2:{ symmetry. apply andb_false_iff. destruct (decide (k = 0)) as [->|Hk0]; [by right|].
      left. apply Nat.eqb_neq. lia. }
  rewrite (proj2 (Nat.ltb_ge n k)) by done.
  by rewrite take_indices_seq.
Qed.

Lemma choice_too_many (a : list nat) (k : nat) (st : store) :
  length a < k → ∃ msg, choice a k st = (Raise (ValueError msg), st).
Proof.
  intros Hk. unfold random_choice. destruct ((length a =? 0) && negb (k =? 0)); [by eexists|].
  rewrite (proj2 (Nat.ltb_lt (length a) k)) by done. by eexists.
Qed.

(** A run of the [existing_word] branch that has enough old rows to draw
    from. *)
Lemma existing_word_run (k : nat) (st : store) :
  let n := length (weight st) in
  let pop := Tokenizer.len (tokenizer st) - k in
  1 ≤ k → k ≤ pop → pop ≤ n → k ≤ n →
  ∃ rand_indices s rows,
    choice (seq 0 pop) k st = (Return rand_indices, set_np_random s st)
    ∧ NoDup rand_indices ∧ length rand_indices = k
    ∧ Forall (λ r, r < pop) rand_indices
    ∧ length rows = k
    ∧ (∀ j ridx, rand_indices !! j = Some ridx → rows !! j = weight st !! ridx)
    ∧ existing_word k st
      = (Return tt, set_weight (take (n - k) (weight st) ++ rows) (set_np_random s st)).
Proof.
  intros n pop Hk Hpop Hn Hkn.
  destruct (choice_run pop k st Hpop) as (idx & s & Hc & Hnd & Hlen & Hlt).
  destruct (take_indices_in_range (weight st) idx) as (rows & Hrows & Hrlen & Hlook).
  { eapply Forall_impl; [exact Hlt|]. intros i Hi. simpl in Hi. fold n. lia. }
  exists idx, s, rows. repeat (split; [done || congruence|]).
  unfold init_existing_word, mbind, M_bind, len_tokenizer, get_weight, lift.
  fold pop. rewrite Hc. simpl weight. rewrite Hrows.
  destruct rows as [|r rows]; [simpl in Hrlen; lia|]. rewrite torch_stack_cons.
  rewrite assign_from_neg_exact; [done|done|done|congruence].
Qed.

(** C6: in the [existing_word] branch, whatever the state of the
    generator, if there are at least as many old rows as new ones, the
    positions drawn are pairwise distinct positions of old rows, and the
    [j]-th new row receives the value of the row at the [j]-th position. *)
Theorem existing_word_copies_distinct_rows (k : nat) (st : store) :
  let n := length (weight st) in
  Tokenizer.len (tokenizer st) = n →
  1 ≤ k → k ≤ n - k →
  ∃ rand_indices st1 st',
    choice (seq 0 (n - k)) k st = (Return rand_indices, st1)
    ∧ NoDup rand_indices
    ∧ length rand_indices = k
    ∧ Forall (λ r, r < n - k) rand_indices
    ∧ existing_word k st = (Return tt, st')
    ∧ length (weight st') = n
    ∧ (∀ i, i < n - k → weight st' !! i = weight st !! i)
    ∧ (∀ j ridx, rand_indices !! j = Some ridx →
         weight st' !! (n - k + j) = weight st !! ridx).
Proof.
  intros n Htok Hk Hpop.
  destruct (existing_word_run k st) as (idx & s & rows & Hc & Hnd & Hlen & Hlt & Hrlen & Hlook & Hrun);
    rewrite ?Htok; fold n; try lia.
  rewrite Htok in Hc, Hlt. fold n in Hc, Hlt, Hrun.
  eexists idx, _, _. split; [exact Hc|]. do 3 (split; [done|]).
  split; [exact Hrun|]. simpl.
  assert (Htake : length (take (n - k) (weight st)) = n - k) by (rewrite length_take; lia).
  split; [|split].
  - rewrite length_app, Htake. lia.
  - intros i Hi. rewrite lookup_app_l by lia. by rewrite lookup_take_lt.
  - intros j ridx Hj. rewrite lookup_app_r by lia.
    rewrite Htake. replace (n - k + j - (n - k)) with j by lia. by apply Hlook.
Qed.

Lemma initialize_other_method (vocab_init_method : option string) (k : nat) (st : store) :
  vocab_init_method ≠ Some "avg" → vocab_init_method ≠ Some "existing_word" →
  initialize vocab_init_method k st = (Return tt, st).
Proof. intros H1 H2. unfold initialize_new_embeddings. by rewrite !decide_False. Qed.

Lemma initialize_existing_word (k : nat) (st : store) :
  initialize (Some "existing_word") k st = existing_word k st.
Proof. done. Qed.

Lemma set_tokenizer_same (st : store) : set_tokenizer (tokenizer st) st = st.
Proof. by destruct st. Qed.

End VocabExpansionProperties.

(** ** Runs on the small instance *)

Lemma existing_word_copies_distinct_rows_witness :
  Tokenizer.len (tokenizer (Demo.store5 4)) = length (weight (Demo.store5 4))
  ∧ 1 ≤ 2 ∧ 2 ≤ length (weight (Demo.store5 4)) - 2
  ∧ ∃ rand_indices st1 st',
      random_choice Demo.random_interval (seq 0 (length (weight (Demo.store5 4)) - 2)) 2
        (Demo.store5 4) = (Return rand_indices, st1)
      ∧ NoDup rand_indices
      ∧ length rand_indices = 2
      ∧ Forall (λ r, r < length (weight (Demo.store5 4)) - 2) rand_indices
      ∧ init_existing_word Demo.random_interval 2 (Demo.store5 4) = (Return tt, st')
      ∧ length (weight st') = length (weight (Demo.store5 4))
      ∧ (∀ i, i < length (weight (Demo.store5 4)) - 2 →
              weight st' !! i = weight (Demo.store5 4) !! i)
      ∧ (∀ j ridx, rand_indices !! j = Some ridx →
           weight st' !! (length (weight (Demo.store5 4)) - 2 + j)
           = weight (Demo.store5 4) !! ridx).
Proof.
  assert (H1 : Tokenizer.len (tokenizer (Demo.store5 4)) = length (weight (Demo.store5 4)))
    by reflexivity.
  assert (H2 : 1 ≤ 2) by lia.
  assert (H3 : 2 ≤ length (weight (Demo.store5 4)) - 2) by (simpl; lia).
  split; [exact H1|]. split; [exact H2|]. split; [exact H3|].
  exact (existing_word_copies_distinct_rows Demo.random_interval 2 (Demo.store5 4) H1 H2 H3).
Defined.

Example existing_word_run_example :
  Demo.initialize (Some "existing_word") 2 (Demo.store5 4)
  = (Return tt,
     mk_store (add_new_vocabs Demo.vocab3 ["x"; "y"])
       [[10; 11]; [20; 21]; [30; 31]; [10; 11]; [30; 31]]%Z 18 0).
Proof. reflexivity. Qed.

(** The claim as stated fails: an unknown method is accepted, and
    [existing_word] works with one old row. *)
Lemma initialize_accepts_unknown_method :
  Demo.initialize (Some "foo") 2 (Demo.store5 5) = (Return tt, Demo.store5 5)
  ∧ Demo.initialize (Some "existing_word") 1 (Demo.store2 5)
    = (Return tt, mk_store {[ "a" := 0; "x" := 1 ]} [[10; 11]; [10; 11]]%Z 5 0).
Proof. split; reflexivity. Qed.

(** The claim as stated fails: the block runs to its end on an empty
    vocabulary file. *)
Lemma empty_vocab_file_accepted :
  Demo.block "t5-small" false [] (Some "default") (Demo.store3 5)
  = (Return tt, Demo.store3 5).
Proof. reflexivity. Qed.

(** ** The initialisation with torch's constructor *)

Section TorchProperties.

Context {row np_state torch_state dist : Type}.
Variable random_interval : np_state → nat → nat * np_state.
Variable torch_mean : list row → row.
Variable normal : row → Torch.covariance row → outcome dist.
Variable dist_sample : dist → torch_state → row * torch_state.

Local Abbreviation store := (store (row := row) (np_state := np_state) (torch_state := torch_state)).
Local Abbreviation initialize := (initialize_new_embeddings random_interval torch_mean
  Torch.centered_gram Torch.mat_div Torch.mat_scale (Torch.MultivariateNormal normal)
  dist_sample).

(** The [avg] branch over fewer than two old rows: the constructor refuses
    the statistics before a row is drawn or written. *)
Lemma avg_few_rows (k : nat) (st : store) :
  length (slice_to_neg k (weight st)) < 2 →
  ∃ msg, initialize (Some "avg") k st = (Raise (ValueError msg), st).
Proof.
  intros Hfew. unfold initialize_new_embeddings. rewrite decide_True by done.
  unfold init_avg, mbind, M_bind, get_weight, lift, Torch.MultivariateNormal.
  cbn [Torch.rows_under].
  destruct (length (slice_to_neg k (weight st))) as [|[|n]]; [by eexists..|lia].
Qed.

Lemma existing_word_too_few (k : nat) (st : store) :
  Tokenizer.len (tokenizer st) - k < k →
  ∃ msg, initialize (Some "existing_word") k st = (Raise (ValueError msg), st).
Proof.
  intros Hfew. unfold initialize_new_embeddings.
  rewrite decide_False, decide_True by done.
  unfold init_existing_word, mbind, M_bind, len_tokenizer.
  destruct (choice_too_many random_interval (seq 0 (Tokenizer.len (tokenizer st) - k)) k st)
    as [msg Hc].
  { by rewrite length_seq. }
  exists msg. by rewrite Hc.
Qed.

(** C7, amended: the method is not validated and no [ConfigError] exists.
    Any value other than "avg" and "existing_word" takes the last branch,
    which returns without an error and without touching the store. Too few
    existing rows are refused by the libraries only: the [avg] branch over
    fewer than two old rows ends in the [ValueError] of torch's
    constructor, the store untouched; the [existing_word] branch ends in
    NumPy's [ValueError] when there are fewer old tokens than new rows, and
    on a matrix with one row per token and [1 ≤ k] new rows it returns
    normally when at least [k] rows are old (one old row and one new row
    are enough). *)
Theorem initialize_does_not_validate :
  (∀ (vocab_init_method : option string) (k : nat) (st : store),
     vocab_init_method ≠ Some "avg" → vocab_init_method ≠ Some "existing_word" →
     initialize vocab_init_method k st = (Return tt, st))
  ∧ (∀ (k : nat) (st : store),
       length (slice_to_neg k (weight st)) < 2 →
       ∃ msg, initialize (Some "avg") k st = (Raise (ValueError msg), st))
  ∧ (∀ (k : nat) (st : store),
       Tokenizer.len (tokenizer st) - k < k →
       ∃ msg, initialize (Some "existing_word") k st = (Raise (ValueError msg), st))
  ∧ (∀ (k : nat) (st : store),
       Tokenizer.len (tokenizer st) = length (weight st) →
       1 ≤ k → k ≤ length (weight st) - k →
       ∃ st', initialize (Some "existing_word") k st = (Return tt, st')).
Proof.
  split; [intros; by apply initialize_other_method|].
  split; [exact avg_few_rows|]. split; [exact existing_word_too_few|].
  intros k st Htok Hk Hpop.
  rewrite (initialize_existing_word random_interval torch_mean Torch.centered_gram
             Torch.mat_div Torch.mat_scale (Torch.MultivariateNormal normal) dist_sample).
  destruct (existing_word_run random_interval k st)
    as (idx & s & rows & _ & _ & _ & _ & _ & _ & Hrun); rewrite ?Htok; try lia.
  eexists. exact Hrun.
Qed.

(** C9, amended: an empty vocabulary file raises no error of its own. The
    loop over the new tokens does nothing and leaves the tokenizer. With no
    new token the last branch of the initialisation returns normally; the
    [avg] branch ends in the [ValueError] with which torch's constructor
    refuses the statistics of no row ([[:-0]] selects no row), the store
    untouched; the [existing_word] branch ends in the [RuntimeError] of
    [torch.stack] on no row. In every case all rows of the matrix are as
    before. *)
Theorem empty_new_vocabs_not_rejected (prepend_space_to_vocab : bool)
    (vocab_init_method : option string) (st : store) :
  let new_vocabs := load_new_vocabs prepend_space_to_vocab [] in
  let r := (add_new_vocabs_M new_vocabs
              ≫= λ _, initialize vocab_init_method (length new_vocabs)) st in
  add_new_vocabs_M new_vocabs st = (Return tt, st)
  ∧ tokenizer r.2 = tokenizer st
  ∧ weight r.2 = weight st
  ∧ (vocab_init_method ≠ Some "avg" → vocab_init_method ≠ Some "existing_word" →
     r = (Return tt, st))
  ∧ (vocab_init_method = Some "avg" → ∃ msg, r = (Raise (ValueError msg), st))
  ∧ (vocab_init_method = Some "existing_word" →
     r.1 = Raise (RuntimeError "stack expects a non-empty TensorList")).
Proof.
  simpl. unfold mbind, M_bind, add_new_vocabs_M. simpl add_new_vocabs.
  rewrite set_tokenizer_same. split; [done|].
  destruct (decide (vocab_init_method = Some "avg")) as [->|Havg].
  { destruct (avg_few_rows 0 st) as [msg Hrun]; [simpl; lia|].
    rewrite Hrun. simpl. repeat (split; [done|]). split; [by eexists|done]. }
  destruct (decide (vocab_init_method = Some "existing_word")) as [->|Hword].
  { unfold initialize_new_embeddings. rewrite decide_False, decide_True by done.
    unfold init_existing_word, mbind, M_bind, get_weight, lift, len_tokenizer.
    destruct (choice_zero random_interval (seq 0 (Tokenizer.len (tokenizer st) - 0)) st)
      as [s ->].
    simpl. repeat (split; [done|]). split; done. }
  rewrite initialize_other_method by done. simpl. repeat (split; [done|]). intros; congruence.
Qed.

End TorchProperties.

Lemma initialize_does_not_validate_witness :
  TorchDemo.initialize (Some "foo") 2 (Demo.store5 5) = (Return tt, Demo.store5 5)
  ∧ (∃ msg, TorchDemo.initialize (Some "avg") 1 (Demo.store2 5)
            = (Raise (ValueError msg), Demo.store2 5))
  ∧ (∃ msg, TorchDemo.initialize (Some "existing_word") 2 (Demo.store3 5)
            = (Raise (ValueError msg), Demo.store3 5))
  ∧ ∃ st', TorchDemo.initialize (Some "existing_word") 1 (Demo.store2 5) = (Return tt, st').
Proof.
  pose proof (initialize_does_not_validate Demo.random_interval Demo.torch_mean
                TorchDemo.normal Demo.dist_sample)
    as (Hother & Havg & Hfew & Hcopy).
  split; [apply Hother; discriminate|].
  split; [apply Havg; simpl; lia|].
  split; [apply Hfew; vm_compute; lia|].
  apply Hcopy; [reflexivity|simpl; lia..].
Defined.

Lemma empty_new_vocabs_not_rejected_witness :
  let r := (add_new_vocabs_M (load_new_vocabs false [])
              ≫= λ _, TorchDemo.initialize (Some "avg") (length (load_new_vocabs false [])))
             (Demo.store3 5) in
  ∃ msg, r = (Raise (ValueError msg), Demo.store3 5).
Proof.
  pose proof (empty_new_vocabs_not_rejected Demo.random_interval Demo.torch_mean
                TorchDemo.normal Demo.dist_sample false (Some "avg") (Demo.store3 5))
    as (_ & _ & _ & _ & Havg & _).
  apply Havg. reflexivity.
Defined.

(** ** From the trainer's output to the exact-match flags *)

Lemma well_shaped_restore (pad_token_id : Z) (labels : Numpy.ndarray Z) :
  Numpy.well_shaped labels → Numpy.well_shaped (restore_pad_labels pad_token_id labels).
Proof. apply well_shaped_amap. Qed.

Lemma well_shaped_drop_first_column (a : Numpy.ndarray Z) :
  Numpy.well_shaped a → Numpy.well_shaped (drop_first_column a).
Proof.
  intros [H0 H1]. split; simpl.
  - by rewrite length_map.
  - apply Forall_map. eapply Forall_impl; [exact H1|].
    intros r Hr. simpl in *. rewrite length_drop. lia.
Qed.

(** With [pad_to_max_length] and [ignore_pad_token_for_loss] set, the label
    rows come out of the tokenizer with one length and reach the metrics as
    they are stored (the default collator adds nothing): replacing the
    padding by -100 for the loss and putting it back for the metrics gives
    the array of label ids the tokenizer produced, as long as -100 is not
    one of them. *)
Theorem restore_preprocess_labels (pad_token_id : Z) (n1 : nat)
    (labels_input_ids : list (list Z)) :
  Forall (λ label, length label = n1) labels_input_ids →
  Forall (Forall (λ l, l ≠ (-100)%Z)) labels_input_ids →
  restore_pad_labels pad_token_id
    (Numpy.of_rows n1 (preprocess_labels true true pad_token_id labels_input_ids))
  = Numpy.of_rows n1 labels_input_ids.
Proof.
  intros _ Hids. unfold preprocess_labels, restore_pad_labels, Numpy.amap, Numpy.of_rows.
  simpl. rewrite length_map. f_equal.
  rewrite <- list_fmap_compose. rewrite <- (list_fmap_id labels_input_ids) at 2.
  apply Forall_fmap_ext. eapply Forall_impl; [exact Hids|]. intros row Hrow. simpl.
  rewrite <- list_fmap_compose. rewrite <- (list_fmap_id row) at 2.
  apply Forall_fmap_ext. eapply Forall_impl; [exact Hrow|]. intros l Hl. simpl.
  destruct (l =? pad_token_id)%Z eqn:E; simpl.
  - by apply Z.eqb_eq in E.
  - by rewrite (proj2 (Z.eqb_neq l (-100)) Hl).
Qed.

Lemma restore_preprocess_labels_witness :
  restore_pad_labels 0
    (Numpy.of_rows 3 (preprocess_labels true true 0 [[5; 6; 0]; [7; 0; 0]]%Z))
  = Numpy.of_rows 3 [[5; 6; 0]; [7; 0; 0]]%Z.
Proof.
  apply restore_preprocess_labels.
  - repeat constructor.
  - repeat constructor; discriminate.
Defined.

(** Products of hits and mask only see the predictions where the label is
    not padding. *)
Lemma masked_hits_agree (pad_id : Z) (p p' g : list Z) :
  length p = length p' →
  (∀ j x, g !! j = Some x → x ≠ pad_id → p !! j = p' !! j) →
  zip_with Z.mul (zip_with (λ a b : Z, Z.b2z (a =? b)%Z) p g)
    (map (λ x : Z, if (x =? pad_id)%Z then 0%Z else 1%Z) g)
  = zip_with Z.mul (zip_with (λ a b : Z, Z.b2z (a =? b)%Z) p' g)
      (map (λ x : Z, if (x =? pad_id)%Z then 0%Z else 1%Z) g).
Proof.
  revert p' g. induction p as [|a p IH]; intros [|a' p'] [|x g] Hlen Hagree;
    simpl in *; try done.
  f_equal.
  - destruct (x =? pad_id)%Z eqn:E; [lia|].
    apply Z.eqb_neq in E. specialize (Hagree 0 x eq_refl E). simpl in Hagree.
    by injection Hagree as ->.
  - apply IH; [lia|]. intros j y Hj Hy. apply (Hagree (S j) y Hj Hy).
Qed.

(** With labels at least as long as the predictions, the accuracies do not
    depend on what is predicted at the positions where the label is
    [pad_token_id]. *)
Theorem sequence_accuracy_ignores_padded_positions
    (predictions predictions' labels : Numpy.ndarray Z) (pad_token_id : Z) :
  Numpy.well_shaped predictions → Numpy.well_shaped predictions' →
  Numpy.well_shaped labels →
  Numpy.shape0 predictions' = Numpy.shape0 predictions →
  Numpy.shape1 predictions' = Numpy.shape1 predictions →
  Numpy.shape0 labels = Numpy.shape0 predictions →
  Numpy.shape1 predictions ≤ Numpy.shape1 labels →
  (∀ i j p p' g x,
     Numpy.data predictions !! i = Some p → Numpy.data predictions' !! i = Some p' →
     Numpy.data labels !! i = Some g → g !! j = Some x → x ≠ pad_token_id →
     p !! j = p' !! j) →
  sequence_accuracy predictions labels pad_token_id
  = sequence_accuracy predictions' labels pad_token_id.
Proof.
  intros Hp Hp' Hl E0 E1 Hb Hle Hagree.
  rewrite !sequence_accuracy_refines_spec by (done || congruence || lia).
  f_equal. unfold spec_sequence_accuracy. rewrite E1.
  replace (Numpy.shape1 predictions `max` Numpy.shape1 labels - Numpy.shape1 labels)
    with 0 by lia.
  rewrite pad_zero_data. simpl Numpy.data.
  set (w := Numpy.shape1 predictions `max` Numpy.shape1 labels - Numpy.shape1 predictions).
  apply list_eq. intros i. rewrite !lookup_zip_with, !list_lookup_fmap.
  destruct (Numpy.data labels !! i) as [g|] eqn:Hg.
  2:{ by destruct (Numpy.data predictions !! i), (Numpy.data predictions' !! i). }
  destruct Hp as [Hp0 Hp1], Hp' as [Hp0' Hp1'].
  destruct (Numpy.data predictions !! i) as [p|] eqn:Hpi.
  2:{ apply lookup_ge_None in Hpi.
      rewrite (proj2 (lookup_ge_None (Numpy.data predictions') i)) by lia. done. }
  destruct (lookup_lt_is_Some_2 (Numpy.data predictions') i) as [p' Hpi'].
  { apply lookup_lt_Some in Hpi. lia. }
  rewrite Hpi'. simpl. do 3 f_equal.
  assert (Hlp : length p = Numpy.shape1 predictions).
  { eapply (proj1 (Forall_lookup _ _) Hp1); done. }
  assert (Hlp' : length p' = Numpy.shape1 predictions).
  { rewrite <- E1. eapply (proj1 (Forall_lookup _ _) Hp1'); done. }
  apply masked_hits_agree; [rewrite !length_app; lia|].
  intros j x Hj Hx.
  destruct (decide (j < length p)) as [Hlt|Hge].
  - rewrite !lookup_app_l by lia. by eapply Hagree.
  - rewrite !lookup_app_r by lia. by rewrite Hlp, Hlp'.
Qed.

Lemma sequence_accuracy_ignores_padded_positions_witness :
  sequence_accuracy (Numpy.of_rows 3 [[5; 9; 4]]%Z) (Numpy.of_rows 3 [[5; 6; 0]]%Z) 0
  = sequence_accuracy (Numpy.of_rows 3 [[5; 9; 8]]%Z) (Numpy.of_rows 3 [[5; 6; 0]]%Z) 0.
Proof.
  apply sequence_accuracy_ignores_padded_positions.
  1-3: apply well_shaped_of_rows; repeat constructor.
  1-3: reflexivity.
  { simpl. lia. }
  intros [|i] j p p' g x Hp Hp' Hg Hj Hx; simpl in *; [|done].
  injection Hp as <-. injection Hp' as <-. injection Hg as <-.
  destruct j as [|[|[|j]]]; simpl in *; try done.
  by injection Hj as <-.
Defined.

Lemma spec_sequence_accuracy_length (predictions labels : Numpy.ndarray Z) (pad_id : Z) :
  Numpy.well_shaped predictions → Numpy.well_shaped labels →
  Numpy.shape0 labels = Numpy.shape0 predictions →
  length (spec_sequence_accuracy predictions labels pad_id) = Numpy.shape0 predictions.
Proof.
  intros [Hp _] [Hl _] Hb. unfold spec_sequence_accuracy. simpl.
  rewrite length_zip_with, !length_map. lia.
Qed.

(** The first column of the predictions (the start token) is dropped
    before scoring. If what is left is no longer than the labels, the
    prediction step gets one exact-match flag per example; if it is longer
    than two or more label columns, the step ends in the broadcasting
    error. *)
Theorem predict_exact_matches_outcome (ignore_pad_token_for_loss : bool)
    (predictions label_ids : Numpy.ndarray Z) (pad_token_id : Z) :
  Numpy.well_shaped predictions → Numpy.well_shaped label_ids →
  Numpy.shape0 label_ids = Numpy.shape0 predictions →
  (Numpy.shape1 predictions - 1 ≤ Numpy.shape1 label_ids →
   ∃ exact_matches,
     predict_exact_matches ignore_pad_token_for_loss predictions label_ids pad_token_id
     = Return exact_matches
     ∧ length exact_matches = Numpy.shape0 predictions)
  ∧ (Numpy.shape1 label_ids < Numpy.shape1 predictions - 1 → 2 ≤ Numpy.shape1 label_ids →
     predict_exact_matches ignore_pad_token_for_loss predictions label_ids pad_token_id
     = Raise Numpy.broadcast_error).
Proof.
  intros Hp Hl Hb. unfold predict_exact_matches.
  set (test_labels := if ignore_pad_token_for_loss
                      then restore_pad_labels pad_token_id label_ids else label_ids).
  assert (Hl' : Numpy.well_shaped test_labels).
  { unfold test_labels. destruct ignore_pad_token_for_loss; [by apply well_shaped_restore|done]. }
  assert (Hs0 : Numpy.shape0 test_labels = Numpy.shape0 label_ids).
  { unfold test_labels. by destruct ignore_pad_token_for_loss. }
  assert (Hs1 : Numpy.shape1 test_labels = Numpy.shape1 label_ids).
  { unfold test_labels. by destruct ignore_pad_token_for_loss. }
  pose proof (well_shaped_drop_first_column predictions Hp) as Hp'.
  split.
  - intros Hle. rewrite sequence_accuracy_refines_spec; [|done|done|simpl; congruence|simpl; lia].
    rewrite bind_Return. eexists. split; [done|].
    unfold exact_matches_of. rewrite length_map, spec_sequence_accuracy_length; try done.
    simpl. congruence.
  - intros Hlt Hge. unfold sequence_accuracy.
    replace (Numpy.shape0 test_labels =? Numpy.shape0 (drop_first_column predictions))
      with true by (symmetry; apply Nat.eqb_eq; simpl; congruence).
    unfold py_assert. rewrite bind_Return. cbv zeta.
    rewrite (binop_equal_dims _ test_labels) by reflexivity. rewrite bind_Return.
    rewrite (binop_equal_dims _ (Numpy.pad (drop_first_column predictions) _))
      by (simpl; lia).
    rewrite bind_Return. rewrite binop_clash; simpl; [done|congruence|lia..].
Qed.

Lemma predict_exact_matches_outcome_witness :
  (∃ exact_matches,
     predict_exact_matches true (Numpy.of_rows 3 [[0; 5; 6]; [0; 7; 8]]%Z)
       (Numpy.of_rows 3 [[5; 6; -100]; [7; 9; -100]]%Z) 0
     = Return exact_matches
     ∧ length exact_matches = 2)
  ∧ predict_exact_matches true (Numpy.of_rows 4 [[0; 5; 6; 1]]%Z)
      (Numpy.of_rows 2 [[5; 6]]%Z) 0
    = Raise Numpy.broadcast_error.
Proof.
  split.
  - apply (predict_exact_matches_outcome true (Numpy.of_rows 3 [[0; 5; 6]; [0; 7; 8]]%Z)
             (Numpy.of_rows 3 [[5; 6; -100]; [7; 9; -100]]%Z) 0).
    1-2: apply well_shaped_of_rows; repeat constructor.
    + reflexivity.
    + simpl. lia.
  - apply (predict_exact_matches_outcome true (Numpy.of_rows 4 [[0; 5; 6; 1]]%Z)
             (Numpy.of_rows 2 [[5; 6]]%Z) 0).
    1-2: apply well_shaped_of_rows; repeat constructor.
    + reflexivity.
    + simpl. lia.
    + simpl. lia.
Defined.

Example predict_exact_matches_example :
  predict_exact_matches true (Numpy.of_rows 3 [[0; 5; 6]; [0; 7; 8]]%Z)
    (Numpy.of_rows 3 [[5; 6; -100]; [7; 9; -100]]%Z) 0
  = Return [true; false].
Proof. reflexivity. Qed.

(** ** More on the grouping by condition *)

Lemma elem_of_condition_indices (cl : list string) (c : string) (i : nat) :
  i ∈ condition_indices cl c ↔ cl !! i = Some c.
Proof.
  unfold condition_indices. rewrite list_elem_of_fmap. split.
  - intros ([j y] & -> & Hin). apply list_elem_of_filter in Hin as [Hy Hin].
    apply elem_of_lookup_imap in Hin as (j' & y' & Heq & Hl).
    simpl in *. by simplify_eq.
  - intros Hi. exists (i, c). split; [done|]. apply list_elem_of_filter. split; [done|].
    apply elem_of_lookup_imap. by exists i, c.
Qed.

Lemma NoDup_condition_indices (cl : list string) (c : string) :
  NoDup (condition_indices cl c).
Proof.
  unfold condition_indices.
  assert (Hpairs : NoDup (imap (λ (i : nat) (x : string), (i, x)) cl)).
  { apply (NoDup_fmap_1 fst). rewrite fmap_imap.
    rewrite (imap_ext _ (λ j _, j)) by done. rewrite imap_seq_0, list_fmap_id.
    apply NoDup_seq. }
  apply NoDup_fmap_fst; [|by apply NoDup_filter].
  intros i y1 y2 [_ H1]%list_elem_of_filter [_ H2]%list_elem_of_filter.
  apply elem_of_lookup_imap in H1 as (j1 & z1 & E1 & L1).
  apply elem_of_lookup_imap in H2 as (j2 & z2 & E2 & L2).
  simplify_eq. congruence.
Qed.

Lemma take_indices_raise {A} (a : list A) (idx : list nat) (e : exn) :
  take_indices a idx = Raise e → e = IndexError "index is out of bounds".
Proof.
  unfold take_indices. induction idx as [|i idx IH]; [done|]. simpl.
  destruct (a !! i) as [x|]; [|by intros [= <-]].
  rewrite bind_Return. destruct (mapM _ idx) as [xs|e'] eqn:E; [done|].
  simpl. intros [= <-]. by apply IH.
Qed.

Lemma take_indices_out_of_bounds {A} (a : list A) (idx : list nat) (i : nat) :
  i ∈ idx → length a ≤ i →
  take_indices a idx = Raise (IndexError "index is out of bounds").
Proof.
  intros Hin Hi.
  destruct (take_indices a idx) as [xs|e] eqn:E; [|by rewrite (take_indices_raise _ _ _ E)].
  exfalso. revert xs E. induction idx as [|j idx IH]; intros xs E.
  - by apply elem_of_nil in Hin.
  - unfold take_indices in E. simpl in E.
    destruct (a !! j) as [x|] eqn:Hj; [|done]. rewrite bind_Return in E.
    fold (take_indices a idx) in E.
    destruct (take_indices a idx) as [ys|e] eqn:E'; [|done].
    apply elem_of_cons in Hin as [->|Hin]; [|by eapply IH].
    apply lookup_lt_Some in Hj. lia.
Qed.

Lemma by_condition_loop_raise (em : list bool) (cl conds : list string)
    (acc : gmap string float) (c : string) :
  c ∈ conds →
  take_indices em (condition_indices cl c) = Raise (IndexError "index is out of bounds") →
  by_condition_loop em cl conds acc = Raise (IndexError "index is out of bounds").
Proof.
  revert acc. induction conds as [|c0 conds IH]; intros acc Hin Hc.
  - by apply elem_of_nil in Hin.
  - simpl. destruct (take_indices em (condition_indices cl c0)) as [sel|e] eqn:E.
    + rewrite bind_Return. apply elem_of_cons in Hin as [->|Hin]; [congruence|].
      by apply IH.
    + by rewrite (take_indices_raise _ _ _ E).
Qed.

(** With more condition labels than exact-match flags the grouping ends in
    an [IndexError]; no accuracy is reported. *)
Theorem exact_match_acc_by_condition_too_many_labels (exact_matches : list bool)
    (condition_list : list string) :
  length exact_matches < length condition_list →
  exact_match_acc_by_condition exact_matches condition_list
  = Raise (IndexError "index is out of bounds").
Proof.
  intros Hlen. unfold exact_match_acc_by_condition.
  destruct (lookup_lt_is_Some_2 condition_list (length exact_matches) Hlen) as [c Hc].
  rewrite (by_condition_loop_raise _ _ _ _ c); [done| |].
  - rewrite elem_of_elements, elem_of_list_to_set. by eapply list_elem_of_lookup_2.
  - apply (take_indices_out_of_bounds _ _ (length exact_matches)); [|done].
    by apply elem_of_condition_indices.
Qed.

Lemma exact_match_acc_by_condition_too_many_labels_witness :
  exact_match_acc_by_condition [true; false] ["a"; "b"; "a"]
  = Raise (IndexError "index is out of bounds").
Proof.
  apply exact_match_acc_by_condition_too_many_labels. simpl. lia.
Defined.

Lemma NoDup_concat_indices {A} (f : A → list nat) (cs : list A) :
  NoDup cs → (∀ c, NoDup (f c)) → (∀ c c' i, i ∈ f c → i ∈ f c' → c = c') →
  NoDup (concat (f <$> cs)).
Proof.
  intros Hcs Hf Hdisj. induction Hcs as [|c cs Hc _ IH]; [constructor|].
  simpl. apply NoDup_app. split; [apply Hf|]. split; [|done].
  intros i Hi Hin. apply list_elem_of_In, in_concat in Hin as (l & Hl & Hil).
  apply list_elem_of_In, list_elem_of_fmap in Hl as (c' & -> & Hc').
  apply list_elem_of_In in Hil. by rewrite (Hdisj c c' i Hi Hil) in Hc.
Qed.

(** The index lists of the distinct conditions split the examples: every
    position of the condition list is selected for exactly one condition. *)
Theorem condition_indices_partition (condition_list : list string) :
  concat (condition_indices condition_list
            <$> elements (list_to_set condition_list : gset string))
  ≡ₚ seq 0 (length condition_list).
Proof.
  apply NoDup_Permutation; [|apply NoDup_seq|].
  - apply NoDup_concat_indices; [apply NoDup_elements|apply NoDup_condition_indices|].
    intros c c' i Hi Hi'. apply elem_of_condition_indices in Hi, Hi'. congruence.
  - intros i. rewrite elem_of_seq. split.
    + intros Hin. apply list_elem_of_In, in_concat in Hin as (l & Hl & Hil).
      apply list_elem_of_In, list_elem_of_fmap in Hl as (c & -> & _).
      apply list_elem_of_In, elem_of_condition_indices, lookup_lt_Some in Hil. lia.
    + intros [_ Hi]. destruct (lookup_lt_is_Some_2 condition_list i Hi) as [c Hc].
      apply list_elem_of_In, in_concat. exists (condition_indices condition_list c). split.
      * apply list_elem_of_In, list_elem_of_fmap. exists c. split; [done|].
        rewrite elem_of_elements, elem_of_list_to_set. by eapply list_elem_of_lookup_2.
      * by apply list_elem_of_In, elem_of_condition_indices.
Qed.

(** ** The vocabulary block as a whole *)

Lemma add_token_size (vocab : gmap string nat) (w : string) :
  size (Tokenizer.add_token vocab w)
  = size vocab + match vocab !! w with Some _ => 0 | None => 1 end.
Proof.
  unfold Tokenizer.add_token. destruct (vocab !! w) eqn:Hw; [lia|].
  rewrite map_size_insert_None by done. lia.
Qed.

Lemma add_new_vocabs_size_le (new_vocabs : list string) (vocab : gmap string nat) :
  size (add_new_vocabs vocab new_vocabs) ≤ size vocab + length new_vocabs.
Proof.
  revert vocab. induction new_vocabs as [|w ws IH]; intros vocab; [simpl; lia|].
  rewrite add_new_vocabs_cons. specialize (IH (Tokenizer.add_token vocab w)).
  rewrite add_token_size in IH. simpl. destruct (vocab !! w); lia.
Qed.

(** The tokenizer grows by one token per line exactly when the tokens of
    the file are distinct and new to it. *)
Lemma add_new_vocabs_grown (new_vocabs : list string) (vocab : gmap string nat) :
  size (add_new_vocabs vocab new_vocabs) = size vocab + length new_vocabs →
  NoDup new_vocabs ∧ ∀ w, w ∈ new_vocabs → vocab !! w = None.
Proof.
  revert vocab. induction new_vocabs as [|w ws IH]; intros vocab Hsize.
  - split; [constructor|]. intros w Hw. by apply elem_of_nil in Hw.
  - rewrite add_new_vocabs_cons in Hsize.
    pose proof (add_new_vocabs_size_le ws (Tokenizer.add_token vocab w)) as Hle.
    rewrite add_token_size in Hle. simpl in Hsize.
    destruct (vocab !! w) eqn:Hw; [lia|].
    rewrite add_token_fresh in Hsize by done.
    destruct (IH (<[w := size vocab]> vocab)) as [Hnd Hnew].
    { rewrite map_size_insert_None by done. lia. }
    assert (Hnotin : w ∉ ws).
    { intros Hin. specialize (Hnew w Hin). by rewrite lookup_insert_eq in Hnew. }
    split; [by constructor|].
    intros w' Hw'. apply elem_of_cons in Hw' as [->|Hw']; [done|].
    specialize (Hnew w' Hw'). apply lookup_insert_None in Hnew. tauto.
Qed.

Section VocabBlockProperties.

Context {row np_state torch_state mat dist : Type}.
Variable random_interval : np_state → nat → nat * np_state.
Variable init_weight : torch_state → row * torch_state.
Variable torch_mean : list row → row.
Variable centered_gram : list row → row → mat.
Variable mat_div : mat → nat → mat.
Variable mat_scale : float → mat → mat.
Variable MultivariateNormal : row → mat → outcome dist.
Variable dist_sample : dist → torch_state → row * torch_state.

Local Abbreviation store := (store (row := row) (np_state := np_state) (torch_state := torch_state)).
Local Abbreviation initialize := (initialize_new_embeddings random_interval torch_mean
  centered_gram mat_div mat_scale MultivariateNormal dist_sample).
Local Abbreviation resize := (resize_token_embeddings init_weight (np_state := np_state)).
Local Abbreviation resize_for := (resize_for init_weight (np_state := np_state)).
Local Abbreviation block := (add_new_vocab random_interval init_weight torch_mean centered_gram
  mat_div mat_scale MultivariateNormal dist_sample).

(** [model.resize_token_embeddings(len(tokenizer))] cuts no row of a
    token. *)
Lemma resize_run (st : store) :
  ∃ st', resize (Tokenizer.len (tokenizer st)) st = (Return tt, st')
       ∧ tokenizer st' = tokenizer st
       ∧ length (weight st') = Tokenizer.len (tokenizer st)
       ∧ (∀ i, i < length (weight st) → i < Tokenizer.len (tokenizer st) →
               weight st' !! i = weight st !! i).
Proof. apply resize_weight. by right. Qed.

Lemma block_unfold (model_name_or_path : string) (prepend_space_to_vocab : bool)
    (vocab_file : list string) (vocab_init_method : option string) (st : store) :
  let new_vocabs := load_new_vocabs prepend_space_to_vocab vocab_file in
  let st1 := if contains "t5" model_name_or_path
             then (resize (Tokenizer.len (tokenizer st)) st).2 else st in
  let st2 := set_tokenizer (add_new_vocabs (tokenizer st1) new_vocabs) st1 in
  block model_name_or_path prepend_space_to_vocab vocab_file vocab_init_method st
  = match resize_for model_name_or_path (length new_vocabs) st2 with
    | (Return _, st3) => initialize vocab_init_method (length new_vocabs) st3
    | (Raise e, st3) => (Raise e, st3)
    end.
Proof.
  intros new_vocabs st1 st2. unfold add_new_vocab, mbind, M_bind.
  fold new_vocabs. unfold st2, st1.
  destruct (contains "t5" model_name_or_path).
  - unfold len_tokenizer.
    destruct (resize_run st) as (st' & -> & _). done.
  - done.
Qed.

(** For a T5 model the block leaves the matrix with exactly one row per
    token of the tokenizer, whatever the file holds and however the
    initialisation ends. *)
Theorem t5_block_rows_match_tokenizer (model_name_or_path : string)
    (prepend_space_to_vocab : bool) (vocab_file : list string)
    (vocab_init_method : option string) (st : store) :
  contains "t5" model_name_or_path = true →
  let st' := (block model_name_or_path prepend_space_to_vocab vocab_file
                vocab_init_method st).2 in
  length (weight st') = Tokenizer.len (tokenizer st').
Proof.
  intros Ht5. rewrite block_unfold. rewrite Ht5. cbv zeta.
  set (st2 := set_tokenizer _ _). unfold resize_for. rewrite Ht5.
  unfold mbind, M_bind, len_tokenizer.
  destruct (resize_run st2) as (st3 & -> & Htok & Hlen & _).
  destruct (initialize_frame random_interval torch_mean centered_gram mat_div mat_scale
              MultivariateNormal dist_sample vocab_init_method
              (length (load_new_vocabs prepend_space_to_vocab vocab_file)) st3)
    as (Htok' & Hlen' & _).
  destruct (initialize _ _ st3) as [[[]|e] st4]; simpl in *; congruence.
Qed.

(** For a model that is neither T5, BART nor LED the block raises, but only
    after the tokens of the file were added to the tokenizer; the matrix is
    not touched. *)
Theorem unsupported_model_raises_after_adding (model_name_or_path : string)
    (prepend_space_to_vocab : bool) (vocab_file : list string)
    (vocab_init_method : option string) (st : store) :
  contains "t5" model_name_or_path = false →
  contains "bart" model_name_or_path = false →
  contains "allenai/led" model_name_or_path = false →
  block model_name_or_path prepend_space_to_vocab vocab_file vocab_init_method st
  = (Raise (ValueError "Only T5, BART and LED are currently supported for vocab resizing."),
     set_tokenizer
       (add_new_vocabs (tokenizer st) (load_new_vocabs prepend_space_to_vocab vocab_file))
       st).
Proof.
  intros Ht5 Hbart Hled. rewrite block_unfold. rewrite Ht5. cbv zeta.
  unfold resize_for. by rewrite Ht5, Hbart, Hled.
Qed.

(** For BART and LED the number of rows after the block is the constant of
    the model family plus the number of lines of the file, whatever the
    tokenizer holds, as long as the matrix had no more rows than that
    before (nothing is cut). *)
Theorem bart_led_block_rows (model_name_or_path : string)
    (prepend_space_to_vocab : bool) (vocab_file : list string)
    (vocab_init_method : option string) (st : store) :
  contains "t5" model_name_or_path = false →
  contains "bart" model_name_or_path = true
  ∨ contains "allenai/led" model_name_or_path = true →
  length (weight st)
  ≤ (if contains "bart" model_name_or_path then _BART_EMB_SIZE else _LED_EMB_SIZE)
    + length vocab_file →
  let st' := (block model_name_or_path prepend_space_to_vocab vocab_file
                vocab_init_method st).2 in
  length (weight st')
  = (if contains "bart" model_name_or_path then _BART_EMB_SIZE else _LED_EMB_SIZE)
    + length vocab_file.
Proof.
  intros Ht5 Hfam Hroom. rewrite block_unfold. rewrite Ht5. cbv zeta.
  set (st2 := set_tokenizer _ _). unfold resize_for. rewrite Ht5.
  assert (Hk : length (load_new_vocabs prepend_space_to_vocab vocab_file) = length vocab_file)
    by apply length_map.
  set (size := if contains "bart" model_name_or_path then _BART_EMB_SIZE else _LED_EMB_SIZE)
    in *.
  assert (Hres : (if contains "bart" model_name_or_path
                  then resize (_BART_EMB_SIZE
                               + length (load_new_vocabs prepend_space_to_vocab vocab_file))
                  else if contains "allenai/led" model_name_or_path
                       then resize (_LED_EMB_SIZE
                                    + length (load_new_vocabs prepend_space_to_vocab vocab_file))
                       else lift (Raise (ValueError
                         "Only T5, BART and LED are currently supported for vocab resizing.")))
                 = resize (size + length vocab_file)).
  { unfold size. rewrite Hk. destruct (contains "bart" model_name_or_path); [done|].
    destruct Hfam as [?| ->]; done. }
  rewrite Hres. clearbody size. clear Hres.
  destruct (resize_weight init_weight (size + length vocab_file) st2)
    as (st3 & -> & _ & Hlen & _); [by left|].
  destruct (initialize_frame random_interval torch_mean centered_gram mat_div mat_scale
              MultivariateNormal dist_sample vocab_init_method
              (length (load_new_vocabs prepend_space_to_vocab vocab_file)) st3)
    as (_ & Hlen' & _).
  destruct (initialize _ _ st3) as [[[]|e] st4]; simpl in *; congruence.
Qed.

(** End to end for a T5 model and the [existing_word] method: when no
    token of the file is empty (the library's tokenizer ignores an empty
    token), every line has added a token (the tokenizer has grown by the
    number of lines), there are at least as many old tokens as new ones and
    the matrix has a row for every old token, the block returns normally,
    the rows of the old tokens are as before, and the row at the id of each
    new token is a copy of the row of an old token, a different one for
    each new token. *)
Theorem t5_existing_word_end_to_end (model_name_or_path : string)
    (prepend_space_to_vocab : bool) (vocab_file : list string) (st : store) :
  let V := tokenizer st in
  let new_vocabs := load_new_vocabs prepend_space_to_vocab vocab_file in
  contains "t5" model_name_or_path = true →
  EmptyString ∉ new_vocabs →
  Tokenizer.len (add_new_vocabs V new_vocabs) = Tokenizer.len V + length new_vocabs →
  1 ≤ length new_vocabs → length new_vocabs ≤ Tokenizer.len V →
  Tokenizer.len V ≤ length (weight st) →
  ∃ st' sources,
    block model_name_or_path prepend_space_to_vocab vocab_file (Some "existing_word") st
    = (Return tt, st')
    ∧ (∀ i, i < Tokenizer.len V → weight st' !! i = weight st !! i)
    ∧ NoDup sources
    ∧ length sources = length new_vocabs
    ∧ ∀ j w, new_vocabs !! j = Some w →
        ∃ id src, tokenizer st' !! w = Some id
                ∧ sources !! j = Some src
                ∧ src < Tokenizer.len V
                ∧ weight st' !! id = weight st !! src.
Proof.
  intros V new_vocabs Ht5 _ Hgrown Hk1 Hk Hrows.
  destruct (add_new_vocabs_grown new_vocabs V Hgrown) as [Hnd Hnew].
  rewrite block_unfold. rewrite Ht5. cbv zeta. fold new_vocabs.
  destruct (resize_run st) as (st1 & Hr1 & Htok1 & Hlen1 & Hrows1).
  unfold Tokenizer.len in *.
  fold V in Hr1, Hlen1, Hrows1 |- *. rewrite Hr1. simpl snd. rewrite Htok1. fold V.
  destruct (add_new_vocabs_fresh new_vocabs V Hnd Hnew) as (Hsize & Hids & _).
  set (V' := add_new_vocabs V new_vocabs) in *.
  set (st2 := set_tokenizer V' st1).
  unfold resize_for. rewrite Ht5. unfold mbind, M_bind, len_tokenizer, Tokenizer.len.
  destruct (resize_run st2) as (st3 & Hr3 & Htok3 & Hlen3 & Hrows3).
  unfold Tokenizer.len in Hr3, Hlen3, Hrows3. rewrite Hr3.
  change (tokenizer st2) with V' in *. change (weight st2) with (weight st1) in *.
  rewrite Hsize in Hlen3, Hrows3.
  destruct (existing_word_run random_interval (length new_vocabs) st3)
    as (idx & s & rows & _ & Hidx_nd & Hidx_len & Hidx_lt & Hrlen & Hlook & Hrun);
    unfold Tokenizer.len; rewrite ?Htok3, ?Hsize, ?Hlen3; try lia.
  unfold Tokenizer.len in Hidx_lt. rewrite Htok3, Hsize in Hidx_lt. rewrite Hlen3 in Hrun.
  replace (size V + length new_vocabs - length new_vocabs) with (size V) in Hrun, Hidx_lt
    by lia.
  rewrite initialize_existing_word, Hrun.
  assert (Hold : ∀ i, i < size V → weight st3 !! i = weight st !! i).
  { intros i Hi. rewrite Hrows3 by lia. apply Hrows1; lia. }
  assert (Htake : length (take (size V) (weight st3)) = size V)
    by (rewrite length_take; lia).
  eexists _, idx. split; [done|]. simpl. split; [|split; [done|split; [done|]]].
  - intros i Hi. rewrite lookup_app_l by lia. rewrite lookup_take_lt by done. by apply Hold.
  - intros j w Hj.
    destruct (lookup_lt_is_Some_2 idx j) as [src Hsrc].
    { rewrite Hidx_len. by eapply lookup_lt_Some. }
    exists (size V + j), src. rewrite Htok3.
    split; [by apply Hids|]. split; [done|].
    assert (Hlt : src < size V) by (eapply (proj1 (Forall_lookup _ _) Hidx_lt); done).
    split; [done|].
    rewrite lookup_app_r by lia. rewrite Htake.
    replace (size V + j - size V) with j by lia.
    rewrite (Hlook j src Hsrc). by apply Hold.
Qed.

(** C2, amended: the block resizes the matrix and initialises the last
    [len(new_vocabs)] rows, by whichever method and however the call ends.
    For a T5 model, when no token of the file is empty (the library's
    tokenizer ignores an empty token) and every line has added a token (the
    tokenizer has grown by the number of lines), every row of a token the
    tokenizer had before is still there with the value it had. For the
    other models, when the matrix had no more rows than the constant of the
    model family, every row it had is still there with the value it had. *)
Theorem expansion_keeps_existing_rows (model_name_or_path : string)
    (prepend_space_to_vocab : bool) (vocab_file : list string)
    (vocab_init_method : option string) (st : store) :
  let new_vocabs := load_new_vocabs prepend_space_to_vocab vocab_file in
  let st' := (block model_name_or_path prepend_space_to_vocab vocab_file
                vocab_init_method st).2 in
  (contains "t5" model_name_or_path = true →
   EmptyString ∉ new_vocabs →
   Tokenizer.len (add_new_vocabs (tokenizer st) new_vocabs)
   = Tokenizer.len (tokenizer st) + length new_vocabs →
   ∀ i, i < Tokenizer.len (tokenizer st) → i < length (weight st) →
        weight st' !! i = weight st !! i)
  ∧ (contains "t5" model_name_or_path = false →
     length (weight st)
     ≤ (if contains "bart" model_name_or_path then _BART_EMB_SIZE else _LED_EMB_SIZE) →
     ∀ i, i < length (weight st) → weight st' !! i = weight st !! i).
Proof.
  intros new_vocabs. cbv zeta. rewrite block_unfold. fold new_vocabs. split.
  - intros Ht5 _ Hgrown i Hi Hi'. rewrite Ht5.
    destruct (resize_run st) as (st1 & Hr1 & Htok1 & Hlen1 & Hrows1).
    rewrite Hr1. simpl snd. rewrite Htok1.
    set (st2 := set_tokenizer _ st1). unfold resize_for. rewrite Ht5.
    unfold mbind, M_bind, len_tokenizer.
    destruct (resize_run st2) as (st3 & -> & Htok3 & Hlen3 & Hrows3).
    change (tokenizer st2) with (add_new_vocabs (tokenizer st) new_vocabs) in *.
    change (weight st2) with (weight st1) in *.
    destruct (initialize_frame random_interval torch_mean centered_gram mat_div mat_scale
                MultivariateNormal dist_sample vocab_init_method (length new_vocabs) st3)
      as (_ & _ & Hframe).
    transitivity (weight st3 !! i).
    { destruct (initialize _ _ st3) as [[[]|e] st4]; simpl in *; apply Hframe; lia. }
    rewrite Hrows3 by lia. by apply Hrows1.
  - intros Ht5 Hroom i Hi. rewrite Ht5.
    set (st2 := set_tokenizer _ st). unfold resize_for. rewrite Ht5.
    set (size := if contains "bart" model_name_or_path then _BART_EMB_SIZE else _LED_EMB_SIZE)
      in *.
    assert (Hres : (if contains "bart" model_name_or_path
                    then resize (_BART_EMB_SIZE + length new_vocabs)
                    else if contains "allenai/led" model_name_or_path
                         then resize (_LED_EMB_SIZE + length new_vocabs)
                         else lift (Raise (ValueError
                           "Only T5, BART and LED are currently supported for vocab resizing.")))
                   = (if contains "bart" model_name_or_path
                         || contains "allenai/led" model_name_or_path
                      then resize (size + length new_vocabs)
                      else lift (Raise (ValueError
                        "Only T5, BART and LED are currently supported for vocab resizing.")))).
    { unfold size. by destruct (contains "bart" model_name_or_path). }
    rewrite Hres. clearbody size. clear Hres.
    destruct (contains "bart" model_name_or_path || contains "allenai/led" model_name_or_path);
      [|done].
    destruct (resize_weight init_weight (size + length new_vocabs) st2)
      as (st3 & -> & _ & Hlen3 & Hrows3); [left; simpl; lia|].
    change (weight st2) with (weight st) in *.
    destruct (initialize_frame random_interval torch_mean centered_gram mat_div mat_scale
                MultivariateNormal dist_sample vocab_init_method (length new_vocabs) st3)
      as (_ & _ & Hframe).
    transitivity (weight st3 !! i).
    { destruct (initialize _ _ st3) as [[[]|e] st4]; simpl in *; apply Hframe; lia. }
    apply Hrows3; lia.
Qed.
End VocabBlockProperties.

(** *** The block on the small instance *)

Lemma t5_block_rows_match_tokenizer_witness :
  let st' := (Demo.block "t5-small" true ["x"; "a"] (Some "avg") (Demo.store3 5)).2 in
  length (weight st') = Tokenizer.len (tokenizer st').
Proof.
  apply (t5_block_rows_match_tokenizer Demo.random_interval Demo.init_weight Demo.torch_mean
           (λ _ _, tt) (λ m _, m) (λ _ m, m) Demo.MultivariateNormal Demo.dist_sample
           "t5-small" true ["x"; "a"] (Some "avg") (Demo.store3 5)).
  reflexivity.
Defined.

Lemma unsupported_model_raises_after_adding_witness :
  Demo.block "gpt2" false ["x"] None (Demo.store3 5)
  = (Raise (ValueError "Only T5, BART and LED are currently supported for vocab resizing."),
     set_tokenizer
       (add_new_vocabs (tokenizer (Demo.store3 5)) (load_new_vocabs false ["x"]))
       (Demo.store3 5)).
Proof.
  apply (unsupported_model_raises_after_adding Demo.random_interval Demo.init_weight
           Demo.torch_mean (λ _ _, tt) (λ m _, m) (λ _ m, m) Demo.MultivariateNormal
           Demo.dist_sample "gpt2" false ["x"] None (Demo.store3 5)); reflexivity.
Defined.

Lemma bart_led_block_rows_witness :
  let st' := (Demo.block "facebook/bart-base" false ["x"; "a"; "x"] None (Demo.store3 5)).2 in
  length (weight st')
  = (if contains "bart" "facebook/bart-base" then _BART_EMB_SIZE else _LED_EMB_SIZE)
    + length ["x"; "a"; "x"].
Proof.
  apply (bart_led_block_rows Demo.random_interval Demo.init_weight Demo.torch_mean
           (λ _ _, tt) (λ m _, m) (λ _ m, m) Demo.MultivariateNormal Demo.dist_sample
           "facebook/bart-base" false ["x"; "a"; "x"] None (Demo.store3 5)).
  - reflexivity.
  - left. reflexivity.
  - generalize (if contains "bart" "facebook/bart-base"
                then _BART_EMB_SIZE else _LED_EMB_SIZE).
    intros size. simpl. lia.
Defined.

Lemma t5_existing_word_end_to_end_witness :
  ∃ st' sources,
    Demo.block "t5-small" false ["x"; "y"] (Some "existing_word") (Demo.store3 5)
    = (Return tt, st')
    ∧ (∀ i, i < Tokenizer.len (tokenizer (Demo.store3 5)) →
            weight st' !! i = weight (Demo.store3 5) !! i)
    ∧ NoDup sources
    ∧ length sources = length (load_new_vocabs false ["x"; "y"])
    ∧ ∀ j w, load_new_vocabs false ["x"; "y"] !! j = Some w →
        ∃ id src, tokenizer st' !! w = Some id
                ∧ sources !! j = Some src
                ∧ src < Tokenizer.len (tokenizer (Demo.store3 5))
                ∧ weight st' !! id = weight (Demo.store3 5) !! src.
Proof.
  apply (t5_existing_word_end_to_end Demo.random_interval Demo.init_weight Demo.torch_mean
           (λ _ _, tt) (λ m _, m) (λ _ m, m) Demo.MultivariateNormal Demo.dist_sample
           "t5-small" false ["x"; "y"] (Demo.store3 5)).
  - reflexivity.
  - intros Hin. repeat (apply elem_of_cons in Hin as [?|Hin]; [discriminate|]).
    by apply elem_of_nil in Hin.
  - vm_compute. reflexivity.
  - simpl. lia.
  - vm_compute. lia.
  - vm_compute. lia.
Defined.

Example t5_existing_word_run_example :
  Demo.block "t5-small" false ["x"; "y"] (Some "existing_word") (Demo.store3 5)
  = (Return tt,
     mk_store (add_new_vocabs Demo.vocab3 ["x"; "y"])
       [[10; 11]; [20; 21]; [30; 31]; [20; 21]; [10; 11]]%Z 67 2).
Proof. reflexivity. Qed.

Lemma expansion_keeps_existing_rows_witness :
  Demo.block "t5-small" false ["x"; "y"] (Some "existing_word") (Demo.store3 5)
  = (Return tt,
     mk_store (add_new_vocabs Demo.vocab3 ["x"; "y"])
       [[10; 11]; [20; 21]; [30; 31]; [20; 21]; [10; 11]]%Z 67 2)
  ∧ (∀ i, i < Tokenizer.len (tokenizer (Demo.store3 5)) →
          i < length (weight (Demo.store3 5)) →
          weight (Demo.block "t5-small" false ["x"; "y"] (Some "existing_word")
                    (Demo.store3 5)).2 !! i
          = weight (Demo.store3 5) !! i)
  ∧ (∀ i, i < length (weight (Demo.store3 5)) →
          weight (Demo.block "facebook/bart-base" false ["x"; "y"] (Some "existing_word")
                    (Demo.store3 5)).2 !! i
          = weight (Demo.store3 5) !! i).
Proof.
  split; [reflexivity|]. split.
  - apply (expansion_keeps_existing_rows Demo.random_interval Demo.init_weight
             Demo.torch_mean (λ _ _, tt) (λ m _, m) (λ _ m, m) Demo.MultivariateNormal
             Demo.dist_sample "t5-small" false ["x"; "y"] (Some "existing_word")
             (Demo.store3 5)).
    + reflexivity.
    + intros Hin. repeat (apply elem_of_cons in Hin as [?|Hin]; [discriminate|]).
      by apply elem_of_nil in Hin.
    + vm_compute. reflexivity.
  - apply (expansion_keeps_existing_rows Demo.random_interval Demo.init_weight
             Demo.torch_mean (λ _ _, tt) (λ m _, m) (λ _ m, m) Demo.MultivariateNormal
             Demo.dist_sample "facebook/bart-base" false ["x"; "y"] (Some "existing_word")
             (Demo.store3 5)).
    + reflexivity.
    + apply Nat.leb_le. vm_compute. reflexivity.
Defined.

(** The claim as stated fails. A line of the file that names a token the
    tokenizer already has adds no row, so the last [len(new_vocabs)] rows
    include the row of an old token ("c", row 2), which is overwritten.
    And for a T5 model the rows beyond [len(tokenizer)] are cut before
    anything is added: row 3 is replaced and row 4 is gone. *)
Lemma expansion_overwrites_existing_row :
  Demo.block "t5-small" false ["a"; "x"] (Some "existing_word") (Demo.store3 5)
  = (Return tt,
     mk_store (add_new_vocabs Demo.vocab3 ["a"; "x"])
       [[10; 11]; [20; 21]; [10; 11]; [20; 21]]%Z 38 1)
  ∧ weight (Demo.store3 5) !! 2 = Some [30; 31]%Z
  ∧ Demo.block "t5-small" false ["x"] (Some "default")
      (mk_store Demo.vocab3 [[10; 11]; [20; 21]; [30; 31]; [40; 41]; [50; 51]]%Z 5 0)
    = (Return tt,
       mk_store (add_new_vocabs Demo.vocab3 ["x"])
         [[10; 11]; [20; 21]; [30; 31]; [0; 0]]%Z 5 1).
Proof. repeat split; reflexivity. Qed.

(** ** The data arguments *)

Lemma split_on_cons_inv (sep : Ascii.ascii) (s : string) :
  ∃ p ps, split_on sep s = p :: ps.
Proof.
  induction s as [|c r (p & ps & IH)]; simpl; [by eexists _, _|].
  destruct (Ascii.eqb c sep); [by eexists _, _|]. rewrite IH. by eexists _, _.
Qed.

Lemma split_on_app (sep : Ascii.ascii) (a b : string) :
  split_on sep (String.append a (String sep b)) = split_on sep a ++ split_on sep b.
Proof.
  induction a as [|c r IH]; simpl.
  - by rewrite Ascii.eqb_refl.
  - rewrite IH. destruct (Ascii.eqb c sep); [done|].
    by destruct (split_on_cons_inv sep r) as (p & ps & ->).
Qed.

Lemma split_on_free (sep : Ascii.ascii) (s : string) :
  free_of sep s = true → split_on sep s = [s].
Proof.
  induction s as [|c r IH]; simpl; [done|].
  intros [Hc Hr]%andb_true_iff. apply negb_true_iff in Hc. rewrite Hc, IH; done.
Qed.

Lemma join_split_on (sep : Ascii.ascii) (s : string) :
  join_on sep (split_on sep s) = s.
Proof.
  induction s as [|c r IH]; [done|]. simpl.
  destruct (split_on_cons_inv sep r) as (p & ps & Hsplit). rewrite Hsplit in *.
  destruct (Ascii.eqb c sep) eqn:Hc.
  - apply Ascii.eqb_eq in Hc as ->.
    change (join_on sep ("" :: p :: ps))
      with (String.append "" (String sep (join_on sep (p :: ps)))).
    by rewrite IH.
  - destruct ps as [|q l]; rewrite <- IH; reflexivity.
Qed.

Lemma append_assoc (a b c : string) :
  String.append a (String.append b c) = String.append (String.append a b) c.
Proof.
  induction a as [|x a IH]; [done|].
  change (String x (String.append a (String.append b c))
          = String x (String.append (String.append a b) c)).
  by rewrite IH.
Qed.

Lemma join_on_snoc (sep : Ascii.ascii) (init : list string) (e : string) :
  init ≠ [] →
  join_on sep (init ++ [e]) = String.append (join_on sep init) (String sep e).
Proof.
  induction init as [|p init IH]; [done|]. intros _.
  destruct init as [|q l]; [done|].
  change (join_on sep ((p :: q :: l) ++ [e]))
    with (String.append p (String sep (join_on sep ((q :: l) ++ [e])))).
  rewrite IH by done.
  change (join_on sep (p :: q :: l))
    with (String.append p (String sep (join_on sep (q :: l)))).
  generalize (join_on sep (q :: l)). intros t.
  exact (append_assoc p (String sep t) (String sep e)).
Qed.

Lemma file_extension_suffix (base e : string) :
  free_of dot e = true → file_extension (String.append base (String dot e)) = e.
Proof.
  intros He. unfold file_extension. by rewrite split_on_app, (split_on_free _ e He), last_snoc.
Qed.

Lemma file_extension_whole (e : string) : free_of dot e = true → file_extension e = e.
Proof. intros He. unfold file_extension. by rewrite split_on_free. Qed.

(** A path is its extension, or ends in a dot and its extension. *)
Lemma file_extension_decompose (path : string) :
  path = file_extension path
  ∨ ∃ base, path = String.append base (String dot (file_extension path)).
Proof.
  unfold file_extension.
  destruct (split_on_cons_inv dot path) as (p & ps & Hsplit).
  pose proof (join_split_on dot path) as Hjoin. rewrite Hsplit in *.
  destruct (last (p :: ps)) as [e|] eqn:Hlast; [|by apply last_None in Hlast].
  apply last_Some in Hlast as [init Hsnoc]. rewrite Hsnoc in Hjoin. simpl.
  destruct init as [|q l].
  - left. by rewrite <- Hjoin.
  - right. exists (join_on dot (q :: l)). by rewrite <- Hjoin, join_on_snoc.
Qed.

Lemma file_extension_json (f : string) :
  file_extension f ∈ ["json"; "jsonl"] ↔ json_name f.
Proof.
  split.
  - intros Hext. destruct (file_extension_decompose f) as [Hf|[base Hf]].
    + rewrite <- Hf in Hext. apply elem_of_cons in Hext as [->|Hext]; [by left|].
      apply list_elem_of_singleton in Hext as ->. right. by left.
    + right. right. exists base.
      apply elem_of_cons in Hext as [He|Hext]; [left; by rewrite Hf, He|].
      apply list_elem_of_singleton in Hext. right. by rewrite Hf, Hext.
  - intros [->|[->|[base [->| ->]]]].
    + rewrite file_extension_whole by done. by left.
    + rewrite file_extension_whole by done. right. by left.
    + rewrite (file_extension_suffix base "json" eq_refl
               : file_extension (String.append base ".json") = "json"). by left.
    + rewrite (file_extension_suffix base "jsonl" eq_refl
               : file_extension (String.append base ".jsonl") = "jsonl"). right. by left.
Qed.

Lemma assert_json_Return (file : option string) (msg : string) :
  assert_json file msg = Return tt ↔ ∀ f, file = Some f → json_name f.
Proof.
  unfold assert_json, py_assert. destruct file as [f|]; [|by split].
  case_bool_decide as Hext.
  - split; [|done]. intros _ ? [= <-]. by apply file_extension_json.
  - split; [done|]. intros H. destruct Hext. by apply file_extension_json, H.
Qed.

Lemma assert_json_outcome (file : option string) (msg : string) :
  assert_json file msg = Return tt ∨ assert_json file msg = Raise (AssertionError msg).
Proof.
  unfold assert_json, py_assert. destruct file as [f|]; [|by left].
  case_bool_decide; [by left|by right].
Qed.

(** Which arguments [__post_init__] accepts: a data set name or a training
    or validation file, both languages, and training and validation files
    (where given) whose names end in [.json] or [.jsonl] or are just [json]
    or [jsonl]. Test files play no role. *)
Theorem post_init_accepts (self : DataTrainingArguments) :
  (∃ self', __post_init__ self = Return self')
  ↔ (dataset_name self ≠ None ∨ train_file self ≠ None ∨ validation_file self ≠ None)
    ∧ source_lang self ≠ None ∧ target_lang self ≠ None
    ∧ (∀ f, train_file self = Some f → json_name f)
    ∧ (∀ f, validation_file self = Some f → json_name f).
Proof.
  unfold __post_init__.
  case_bool_decide as Hnone.
  { split; [by intros [? ?]|]. intros (Hsome & _). destruct Hnone as (? & ? & ?).
    destruct Hsome as [?|[?|?]]; done. }
  case_bool_decide as Hlang.
  { split; [by intros [? ?]|]. intros (_ & ? & ? & _). by destruct Hlang. }
  rewrite bind_Return.
  destruct (assert_json_outcome (train_file self) "`train_file` should be a json file.")
    as [Ht|Ht]; rewrite Ht.
  2:{ split; [by intros [? ?]|]. intros (_ & _ & _ & Htrain & _).
      apply (assert_json_Return _ "`train_file` should be a json file.") in Htrain.
      congruence. }
  rewrite bind_Return.
  destruct (assert_json_outcome (validation_file self)
              "`validation_file` should be a json file.") as [Hv|Hv]; rewrite Hv.
  2:{ split; [by intros [? ?]|]. intros (_ & _ & _ & _ & Hval).
      apply (assert_json_Return _ "`validation_file` should be a json file.") in Hval.
      congruence. }
  rewrite bind_Return. split; [|by eexists].
  intros _. split; [|split; [|split; [|split]]].
  - destruct (dataset_name self); [by left|]. destruct (train_file self); [right; by left|].
    destruct (validation_file self); [by right; right|]. by destruct Hnone.
  - intros ?. destruct Hlang. by left.
  - intros ?. destruct Hlang. by right.
  - by eapply assert_json_Return.
  - by eapply assert_json_Return.
Qed.

(** ** Data files, splits and the preprocessing plan *)

(** The format handed to [load_dataset] is the extension of the last file
    that is given, in the order train, validation, test, iid test, iid test
    with novel words, exposure examples. *)
Theorem extension_of_last_given_file (data_args : DataTrainingArguments) :
  (build_data_files data_args).2 = file_extension <$> last_given_file data_args.
Proof.
  unfold build_data_files, last_given_file, add_data_file.
  destruct (train_file data_args), (validation_file data_args), (test_file data_args),
    (iid_test_file data_args), (iid_test_novel_words_file data_args),
    (exposure_examples_file data_args); reflexivity.
Qed.

Lemma post_init_result (self self' : DataTrainingArguments) :
  __post_init__ self = Return self' →
  self' = match val_max_target_length self with
          | None => set_val_max_target_length (max_target_length self) self
          | Some _ => self
          end.
Proof.
  unfold __post_init__. repeat case_bool_decide; try done. rewrite bind_Return.
  destruct (assert_json_outcome (train_file self) "`train_file` should be a json file.")
    as [-> | ->]; [|done].
  destruct (assert_json_outcome (validation_file self)
              "`validation_file` should be a json file.") as [-> | ->]; [|done].
  rewrite !bind_Return. by intros [= <-].
Qed.

Lemma post_init_needs_data (self self' : DataTrainingArguments) :
  __post_init__ self = Return self' →
  dataset_name self ≠ None ∨ train_file self ≠ None ∨ validation_file self ≠ None.
Proof.
  unfold __post_init__. case_bool_decide as Hnone; [done|]. intros _.
  destruct (dataset_name self); [by left|]. destruct (train_file self); [right; by left|].
  destruct (validation_file self); [by right; right|]. by destruct Hnone.
Qed.

(** Arguments that [__post_init__] lets through can be loaded: [extension]
    is assigned, and without a data set name there is a train or a
    validation split. *)
Theorem validated_arguments_load (self self' : DataTrainingArguments)
    (hub_splits : gset string) :
  __post_init__ self = Return self' →
  ∃ datasets, load_datasets self' hub_splits = Finished datasets
            ∧ (dataset_name self = None → "train" ∈ datasets ∨ "validation" ∈ datasets).
Proof.
  intros Hpost. pose proof (post_init_result _ _ Hpost) as ->.
  pose proof (post_init_needs_data _ _ Hpost) as Hsome.
  assert (Hload : ∀ v, load_datasets (set_val_max_target_length v self) hub_splits
                       = load_datasets self hub_splits) by done.
  assert (∃ datasets, load_datasets self hub_splits = Finished datasets
            ∧ (dataset_name self = None → "train" ∈ datasets ∨ "validation" ∈ datasets))
    as Hgoal.
  { unfold load_datasets, build_data_files, add_data_file.
    destruct (dataset_name self) as [name|]; [by eexists|].
    destruct (train_file self) as [t|] eqn:Et.
    - destruct (validation_file self), (test_file self), (iid_test_file self),
        (iid_test_novel_words_file self), (exposure_examples_file self);
        (eexists; split; [reflexivity|]; intros _; left; apply elem_of_dom;
         repeat case_bool_decide; by eexists).
    - destruct (validation_file self) as [v|] eqn:Ev; [|by destruct Hsome as [?|[?|?]]].
      destruct (test_file self), (iid_test_file self),
        (iid_test_novel_words_file self), (exposure_examples_file self);
        (eexists; split; [reflexivity|]; intros _; right; apply elem_of_dom;
         repeat case_bool_decide; by eexists). }
  destruct (val_max_target_length self); [done|]. by rewrite Hload.
Qed.

Lemma validated_arguments_load_witness :
  ∃ datasets, load_datasets (set_val_max_target_length (Some 128%Z) DemoArgs.cogs) ∅
              = Finished datasets
            ∧ (dataset_name DemoArgs.cogs = None →
               "train" ∈ datasets ∨ "validation" ∈ datasets).
Proof.
  apply (validated_arguments_load DemoArgs.cogs). reflexivity.
Defined.

Lemma choose_column_names_Failed (data_args : DataTrainingArguments)
    (do_train do_eval do_predict : bool) (datasets : gset string) (e : main_exn) :
  choose_column_names data_args do_train do_eval do_predict datasets = Failed e →
  ∃ key, e = KeyError key.
Proof.
  unfold choose_column_names, require_split.
  repeat (case_match || case_bool_decide); simpl; intros [= <-]; by eexists.
Qed.

(** The error "--do_train requires a train dataset" cannot come up: the
    split is indexed before the test for it, so a missing train split is a
    [KeyError]. *)
Theorem do_train_check_is_dead (data_args : DataTrainingArguments)
    (do_train do_eval do_predict : bool) (datasets : gset string) :
  plan_datasets data_args do_train do_eval do_predict datasets
  ≠ Failed (PyExn (ValueError "--do_train requires a train dataset"))
  ∧ (do_train = true → "train" ∉ datasets →
     plan_datasets data_args do_train do_eval do_predict datasets
     = Failed (KeyError "train")).
Proof.
  split.
  - unfold plan_datasets.
    destruct (choose_column_names data_args do_train do_eval do_predict datasets)
      as [[cols|]|e] eqn:Hcols; [| done |].
    2:{ apply choose_column_names_Failed in Hcols as [key ->]. done. }
    unfold mbind, main_outcome_bind, require_split.
    destruct do_train.
    + case_bool_decide as Htrain; [|done].
      rewrite (bool_decide_false ("train" ∉ datasets)) by (intros ?; done).
      simpl. repeat (case_match || case_bool_decide); simpl; congruence.
    + simpl. repeat (case_match || case_bool_decide); simpl; congruence.
  - intros -> Htrain. unfold plan_datasets, choose_column_names, require_split.
    rewrite (bool_decide_false ("train" ∈ datasets)) by done. reflexivity.
Qed.

Lemma do_train_check_is_dead_witness :
  plan_datasets DemoArgs.scan true false false {[ "validation" ]}
  ≠ Failed (PyExn (ValueError "--do_train requires a train dataset"))
  ∧ (true = true → "train" ∉ ({[ "validation" ]} : gset string) →
     plan_datasets DemoArgs.scan true false false {[ "validation" ]}
     = Failed (KeyError "train")).
Proof. exact (do_train_check_is_dead DemoArgs.scan true false false {[ "validation" ]}). Defined.

(** Outside the COGS benchmark the test file is loaded as the split
    "test", which is not among the valid test names: with no iid or
    exposure file, a run with [do_predict] never gets past the plan, and a
    run that only predicts from a test file stops at "--do_predict requires
    a valid test dataset". The branch for SCAN accuracies is out of reach
    of such a run. *)
Theorem predict_outside_cogs_fails (data_args : DataTrainingArguments)
    (do_train do_eval : bool) (hub_splits : gset string) :
  benchmark data_args ≠ Some "COGS" →
  dataset_name data_args = None →
  iid_test_file data_args = None →
  iid_test_novel_words_file data_args = None →
  exposure_examples_file data_args = None →
  (∃ e, main_plan data_args do_train do_eval true hub_splits = Failed e)
  ∧ (test_file data_args ≠ None →
     main_plan data_args false false true hub_splits
     = Failed (PyExn (ValueError "--do_predict requires a valid test dataset"))).
Proof.
  intros Hbench Hname Hiid Hnovel Hexp.
  unfold main_plan, load_datasets, build_data_files, add_data_file, plan_datasets,
    choose_column_names, require_split.
  rewrite Hname, Hiid, Hnovel, Hexp, (bool_decide_false _ Hbench).
  split.
  - destruct (train_file data_args), (validation_file data_args), (test_file data_args),
      do_train, do_eval; by eexists.
  - intros Htest.
    destruct (train_file data_args), (validation_file data_args), (test_file data_args);
      done.
Qed.

Lemma predict_outside_cogs_fails_witness :
  (∃ e, main_plan DemoArgs.scan true false true ∅ = Failed e)
  ∧ (test_file DemoArgs.scan ≠ None →
     main_plan DemoArgs.scan false false true ∅
     = Failed (PyExn (ValueError "--do_predict requires a valid test dataset"))).
Proof.
  apply (predict_outside_cogs_fails DemoArgs.scan true false ∅); done.
Defined.

(** For COGS a run that only predicts, from files, goes through the test
    splits of the files that are given in the order gen, iid_test,
    exposure_examples, iid_test_novel_words, and takes the column names from
    the first given one in the order gen, iid_test, iid_test_novel_words,
    exposure_examples. *)
Theorem cogs_predict_plan (data_args : DataTrainingArguments) (hub_splits : gset string) :
  benchmark data_args = Some "COGS" →
  dataset_name data_args = None →
  given_test_names data_args ≠ [] →
  main_plan data_args false false true hub_splits
  = Finished (Some (mk_plan (first_given_test data_args) false false
                      (given_test_names data_args))).
Proof.
  intros Hbench Hname Hgiven.
  unfold main_plan, load_datasets, build_data_files, add_data_file, plan_datasets,
    choose_column_names, require_split, given_test_names, first_given_test in *.
  rewrite Hname, Hbench.
  destruct (train_file data_args), (validation_file data_args), (test_file data_args),
    (iid_test_file data_args), (iid_test_novel_words_file data_args),
    (exposure_examples_file data_args); first [done | reflexivity].
Qed.

Lemma cogs_predict_plan_witness :
  main_plan DemoArgs.cogs false false true ∅
  = Finished (Some (mk_plan (Some "gen") false false ["gen"; "iid_test"])).
Proof.
  apply (cogs_predict_plan DemoArgs.cogs ∅); done.
Defined.

(** ** The vocabulary file *)

Lemma rstrip_newline_spec (line : string) :
  (∃ n, line = String.append (rstrip_newline line) (newlines n))
  ∧ ∀ w, rstrip_newline line ≠ String.append w (String newline EmptyString).
Proof.
  induction line as [|c r [[n Hn] Hend]].
  - split; [by exists 0|]. by intros [|? ?].
  - simpl. destruct (rstrip_newline r) as [|d t] eqn:Ht.
    + simpl in Hn. destruct (Ascii.eqb c newline) eqn:Hc.
      * apply Ascii.eqb_eq in Hc as ->. split; [exists (S n); by rewrite Hn|].
        by intros [|? ?].
      * split; [exists n; by rewrite Hn|].
        intros [|c' w] Hw; simpl in Hw.
        -- injection Hw as ->. by rewrite Ascii.eqb_refl in Hc.
        -- injection Hw as _ Hw. by destruct w.
    + split; [exists n; by rewrite Hn at 1|].
      intros [|c' w] Hw; simpl in Hw; [done|].
      injection Hw as _ Hw. by apply (Hend w).
Qed.

(** Every token read from the vocabulary file is its line without the
    newline characters at its end, all of them and nothing else, with one
    space in front if [prepend_space_to_vocab] is set; no line is skipped. *)
Theorem load_new_vocabs_tokens (prepend_space_to_vocab : bool) (vocab_file : list string) :
  Forall2 (λ line token,
             ∃ w n, line = String.append w (newlines n)
                  ∧ (∀ w', w ≠ String.append w' (String newline EmptyString))
                  ∧ token = if prepend_space_to_vocab then String.append " " w else w)
    vocab_file (load_new_vocabs prepend_space_to_vocab vocab_file).
Proof.
  unfold load_new_vocabs. apply Forall2_fmap_r, Forall_Forall2_diag, Forall_forall.
  intros line _. destruct (rstrip_newline_spec line) as [[n Hn] Hend].
  by exists (rstrip_newline line), n.
Qed.

(** ** Model parallelism *)

(** The device map exists for two, three and four devices and then gives
    every device a block of the layers 0..23, in order and without gaps;
    with fewer devices the assertion fails, with more the map was never
    assigned. *)
Theorem device_map_for_spec (device_count : nat) :
  match device_map_for device_count with
  | Finished device_map =>
      2 ≤ device_count ≤ 4
      ∧ dom device_map = set_seq 0 device_count
      ∧ concat ((λ d, default [] (device_map !! d)) <$> seq 0 device_count) = seq 0 24
  | Failed (PyExn (AssertionError _)) => device_count ≤ 1
  | Failed (UnboundLocalError name) => name = "device_map" ∧ 5 ≤ device_count
  | Failed _ => False
  end.
Proof.
  destruct device_count as [|[|[|[|[|n]]]]]; simpl.
  - lia.
  - lia.
  - split; [lia|]. split; reflexivity.
  - split; [lia|]. split; reflexivity.
  - split; [lia|]. split; reflexivity.
  - split; [done|lia].
Qed.

(** ** Exact matches *)

Lemma ratios_ok_sound (below rest : list float) :
  ratios_ok below rest = true →
  ∀ i n, rest !! i = Some n →
    PrimFloat.eqb (PrimFloat.div n n) 1 = true
    ∧ ∀ c, (c ∈ below ∨ ∃ j, j < i ∧ rest !! j = Some c) →
           PrimFloat.eqb (PrimFloat.div c n) 1 = false.
Proof.
  revert below. induction rest as [|m rest IH]; intros below Hok i n Hi; [done|].
  simpl in Hok. apply andb_true_iff in Hok as [Hok Hrest].
  apply andb_true_iff in Hok as [Hself Hbelow].
  destruct i as [|i]; simpl in Hi.
  - injection Hi as <-. split; [done|]. intros c [Hc|(j & Hj & _)]; [|lia].
    rewrite forallb_forall in Hbelow. apply negb_true_iff, Hbelow.
    by apply list_elem_of_In.
  - destruct (IH (m :: below) Hrest i n Hi) as [Hn Hc]. split; [done|].
    intros c [Hin|(j & Hj & Hjc)]; apply Hc.
    + left. by right.
    + destruct j as [|j]; simpl in Hjc.
      * injection Hjc as <-. left. by left.
      * right. exists j. split; [lia|done].
Qed.

Lemma ratios_checked :
  ratios_ok [count_to_float 0] (count_to_float <$> seq 1 max_checked_length) = true.
Proof. vm_compute. reflexivity. Qed.

(** In float64, for counts up to the bound, [c / n] is [1.0] exactly when
    [c = n]. *)
Lemma true_divide_one (c n : nat) :
  c ≤ n → 1 ≤ n → n ≤ max_checked_length →
  PrimFloat.eqb (true_divide (Z.of_nat c) (Z.of_nat n)) 1 = true ↔ c = n.
Proof.
  intros Hcn Hn Hmax.
  destruct (ratios_ok_sound _ _ ratios_checked (n - 1) (count_to_float n)) as [Hself Hless].
  { rewrite list_lookup_fmap, lookup_seq_lt by lia. simpl. do 2 f_equal. lia. }
  split.
  - intros Hone. destruct (decide (c = n)) as [|Hne]; [done|]. exfalso.
    assert (Hfalse : PrimFloat.eqb (PrimFloat.div (count_to_float c) (count_to_float n)) 1
                     = false).
    { apply Hless. destruct c as [|c]; [left; by left|]. right. exists c. split; [lia|].
      rewrite list_lookup_fmap, lookup_seq_lt by lia. done. }
    unfold true_divide in Hone. unfold count_to_float in Hfalse. congruence.
  - intros ->. exact Hself.
Qed.

(** The two counts of one example: [correct] and [length] are natural
    numbers with [correct ≤ length ≤] the row length; they are equal exactly
    when the prediction hits every label that is not padding. *)
Lemma row_counts (pad_id : Z) (p g : list Z) :
  length p = length g →
  ∃ c n : nat,
    Numpy.sum_list (zip_with Z.mul (zip_with (λ a b : Z, Z.b2z (a =? b)%Z) p g)
                      (map (λ x : Z, if (x =? pad_id)%Z then 0%Z else 1%Z) g)) = Z.of_nat c
    ∧ Numpy.sum_list (map (λ x : Z, if (x =? pad_id)%Z then 0%Z else 1%Z) g) = Z.of_nat n
    ∧ c ≤ n ∧ n ≤ length g
    ∧ (c = n ↔ ∀ j x, g !! j = Some x → x ≠ pad_id → p !! j = Some x)
    ∧ (1 ≤ n ↔ has_label pad_id g).
Proof.
  revert p. induction g as [|x g IH]; intros [|a p] Hlen; try done.
  - exists 0, 0. split_and!; try done.
    split; [lia|]. intros (x & Hx & _). by apply elem_of_nil in Hx.
  - injection Hlen as Hlen.
    destruct (IH p Hlen) as (c & n & Hc & Hn & Hcn & Hng & Hall & Hlab).
    assert (Htail : (∀ j y, g !! j = Some y → y ≠ pad_id → p !! j = Some y)
                    ↔ ∀ j y, (x :: g) !! S j = Some y → y ≠ pad_id → (a :: p) !! S j = Some y)
      by done.
    simpl. unfold Numpy.sum_list in *. simpl. rewrite Hc, Hn.
    destruct (Z.eqb_spec x pad_id) as [->|Hx].
    + exists c, n. split_and!; try lia.
      * rewrite Hall. split.
        -- intros Hrow [|j] y Hj Hy; [simpl in Hj; congruence|]. by apply Hrow.
        -- intros Hrow j y Hj Hy. by apply (Hrow (S j) y).
      * rewrite Hlab. split.
        -- intros (y & Hy & Hne). exists y. split; [by right|done].
        -- intros (y & Hy & Hne). exists y. split; [|done].
           apply elem_of_cons in Hy as [->|Hy]; done.
    + assert (Hsome : has_label pad_id (x :: g)).
      { exists x. split; [by left|done]. }
      destruct (Z.eqb_spec a x) as [->|Hax].
      * exists (S c), (S n). simpl Z.b2z.
        split_and!; [lia|lia|lia|lia| |split; [done|lia]].
        split.
        -- intros Heq [|j] y Hj Hy; [simpl in *; congruence|].
           simpl in *. apply Hall; [lia|done..].
        -- intros Hrow. f_equal. apply Hall. intros j y Hj Hy. by apply (Hrow (S j) y).
      * exists c, (S n). simpl Z.b2z.
        split_and!; [lia|lia|lia|lia| |split; [done|lia]].
        split; [lia|].
        intros Hrow. exfalso. specialize (Hrow 0 x eq_refl Hx). simpl in Hrow. congruence.
Qed.

Lemma exact_match_of_counts (c n : nat) :
  c ≤ n → n ≤ max_checked_length →
  PrimFloat.eqb (true_divide (Z.of_nat c) (Z.of_nat n)) 1 = true ↔ 1 ≤ n ∧ c = n.
Proof.
  intros Hcn Hmax. destruct n as [|n].
  - assert (c = 0) as -> by lia. split; [|lia]. vm_compute. discriminate.
  - rewrite true_divide_one by lia. split; [intros ->; split; [lia|done]|by intros [_ ->]].
Qed.

(** With labels at least as long as the predictions and at most
    [max_checked_length] columns, an example is an exact match
    ([accuracy == 1.]) exactly when its gold row has a label that is not
    padding and the prediction, read as 0 where it is too short, hits every
    such label. *)
Theorem exact_match_iff_all_labels_hit (predictions labels : Numpy.ndarray Z)
    (pad_token_id : Z) (i : nat) (p g : list Z) :
  Numpy.well_shaped predictions → Numpy.well_shaped labels →
  Numpy.shape0 labels = Numpy.shape0 predictions →
  Numpy.shape1 predictions ≤ Numpy.shape1 labels →
  Numpy.shape1 labels ≤ max_checked_length →
  Numpy.data predictions !! i = Some p →
  Numpy.data labels !! i = Some g →
  ∃ acc b, sequence_accuracy predictions labels pad_token_id = Return acc
         ∧ exact_matches_of acc !! i = Some b
         ∧ (b = true ↔ has_label pad_token_id g ∧ row_matches pad_token_id p g).
Proof.
  intros Hp Hl Hb Hle Hmax Hpi Hgi.
  rewrite (sequence_accuracy_refines_spec _ _ _ Hp Hl Hb Hle).
  destruct Hp as [_ Hprows], Hl as [_ Hlrows].
  pose proof (Forall_lookup_1 _ _ _ _ Hprows Hpi) as Hplen.
  pose proof (Forall_lookup_1 _ _ _ _ Hlrows Hgi) as Hglen. simpl in Hplen, Hglen.
  set (w := Numpy.shape1 labels - Numpy.shape1 predictions).
  assert (Hpad : length (p ++ replicate w 0%Z) = length (g ++ replicate 0 0%Z)).
  { rewrite !length_app, !length_replicate. unfold w. lia. }
  destruct (row_counts pad_token_id _ _ Hpad)
    as (c & n & Hc & Hn & Hcn & Hng & Hall & Hlab).
  eexists _, _. split; [done|]. split.
  - unfold exact_matches_of, spec_sequence_accuracy. cbv zeta.
    rewrite list_lookup_fmap, lookup_zip_with. unfold Numpy.pad. simpl.
    rewrite !list_lookup_fmap, Hpi, Hgi. simpl.
    replace (Numpy.shape1 predictions `max` Numpy.shape1 labels) with (Numpy.shape1 labels)
      by lia.
    replace (Numpy.shape1 labels - Numpy.shape1 labels) with 0 by lia.
    fold w. rewrite Hc, Hn. done.
  - rewrite length_app, length_replicate in Hng.
    rewrite exact_match_of_counts by lia.
    assert (Hlab' : has_label pad_token_id (g ++ replicate 0 0%Z) ↔ has_label pad_token_id g).
    { simpl. by rewrite app_nil_r. }
    rewrite Hlab, Hlab', Hall. apply and_iff_compat_l. unfold row_matches.
    simpl. rewrite app_nil_r.
    split; intros Hrow j x Hj Hx.
    + specialize (Hrow j x Hj Hx). destruct (decide (j < length p)) as [Hlt|Hge].
      * rewrite lookup_app_l in Hrow by done. by rewrite Hrow.
      * rewrite lookup_app_r in Hrow by lia. rewrite lookup_ge_None_2 by lia. simpl.
        apply lookup_replicate in Hrow as [-> _]. done.
    + specialize (Hrow j x Hj Hx). apply lookup_lt_Some in Hj.
      destruct (decide (j < length p)) as [Hlt|Hge].
      * rewrite lookup_app_l by done. destruct (p !! j) eqn:E; simpl in Hrow; [by subst|].
        apply lookup_ge_None in E. lia.
      * rewrite lookup_app_r by lia. rewrite lookup_ge_None_2 in Hrow by lia. simpl in Hrow.
        subst x. apply lookup_replicate. split; [done|]. rewrite length_app, length_replicate in Hpad.
        simpl in Hpad. lia.
Qed.

Lemma exact_match_iff_all_labels_hit_witness :
  ∃ acc b, sequence_accuracy (Numpy.of_rows 2 [[5; 1]; [7; 7]]%Z)
             (Numpy.of_rows 3 [[5; 5; 0]; [7; 7; 0]]%Z) 0 = Return acc
         ∧ exact_matches_of acc !! 1 = Some b
         ∧ (b = true ↔ has_label 0 [7; 7; 0]%Z ∧ row_matches 0 [7; 7]%Z [7; 7; 0]%Z).
Proof.
  apply (exact_match_iff_all_labels_hit _ _ 0%Z 1 [7; 7]%Z [7; 7; 0]%Z).
  - apply well_shaped_of_rows. repeat constructor.
  - apply well_shaped_of_rows. repeat constructor.
  - reflexivity.
  - simpl. lia.
  - unfold max_checked_length. simpl. lia.
  - reflexivity.
  - reflexivity.
Defined.

(** ** The file of generations *)

Lemma free_of_append (sep : Ascii.ascii) (a b : string) :
  free_of sep (String.append a b) = free_of sep a && free_of sep b.
Proof.
  induction a as [|c r IH]; [done|].
  change (negb (Ascii.eqb c sep) && free_of sep (String.append r b)
          = (negb (Ascii.eqb c sep) && free_of sep r) && free_of sep b).
  by rewrite IH, andb_assoc.
Qed.

Lemma append_empty_r (a : string) : String.append a EmptyString = a.
Proof.
  induction a as [|c r IH]; [done|].
  change (String c (String.append r EmptyString) = String c r). by rewrite IH.
Qed.

Lemma written_lines (acc : string) (pairs : list (string * string)) :
  foldl (λ written pair, String.append written (tsv_line pair.1 pair.2)) acc pairs
  = String.append acc (foldr (λ pair rest, String.append (tsv_line pair.1 pair.2) rest)
                         EmptyString pairs).
Proof.
  revert acc. induction pairs as [|pair pairs IH]; intros acc; simpl.
  - by rewrite append_empty_r.
  - by rewrite IH, append_assoc.
Qed.

Lemma tsv_line_append (pred label rest : string) :
  String.append (tsv_line pred label) rest
  = String.append (String.append pred (String tab label)) (String newline rest).
Proof.
  unfold tsv_line.
  rewrite <- (append_assoc pred (String tab label)), <- (append_assoc pred). f_equal.
  change (String tab (String.append (String.append label (String newline EmptyString)) rest)
          = String tab (String.append label (String newline rest))).
  by rewrite <- append_assoc.
Qed.

Lemma split_written_lines (pairs : list (string * string)) :
  Forall (λ pair, free_of newline pair.1 = true ∧ free_of newline pair.2 = true) pairs →
  split_on newline (foldr (λ pair rest, String.append (tsv_line pair.1 pair.2) rest)
                      EmptyString pairs)
  = ((λ pair, String.append pair.1 (String tab pair.2)) <$> pairs) ++ [EmptyString].
Proof.
  induction 1 as [|pair pairs [Hp Hl] _ IH]; simpl; [done|].
  rewrite tsv_line_append, split_on_app, IH, split_on_free; [done|].
  rewrite free_of_append. simpl. by rewrite Hp, Hl.
Qed.

(** The file of generations can be read back: when no prediction and no
    gold string holds a tab or a newline, splitting the file into lines
    and the lines at the tab gives the header, the pairs
    [zip(test_preds, test_labels)] in order (what the longer list has
    beyond the shorter one is not written), and one empty line at the end. *)
Theorem write_generations_read_back (test_preds test_labels : list string) :
  Forall (λ s, free_of tab s = true ∧ free_of newline s = true) test_preds →
  Forall (λ s, free_of tab s = true ∧ free_of newline s = true) test_labels →
  read_tsv (write_generations test_preds test_labels)
  = ["prediction"; "gold"]
    :: ((λ pair : string * string, [pair.1; pair.2]) <$> zip test_preds test_labels)
    ++ [[EmptyString]].
Proof.
  intros Hpreds Hlabels. unfold read_tsv, write_generations.
  assert (Hpairs : Forall (λ pair : string * string,
                     (free_of tab pair.1 = true ∧ free_of newline pair.1 = true)
                     ∧ free_of tab pair.2 = true ∧ free_of newline pair.2 = true)
                     (zip test_preds test_labels)).
  { apply Forall_forall. intros [pred label] Hin.
    pose proof (elem_of_zip_l _ _ _ _ Hin) as Hpred.
    pose proof (elem_of_zip_r _ _ _ _ Hin) as Hlabel.
    rewrite Forall_forall in Hpreds, Hlabels. split; [by apply Hpreds|by apply Hlabels]. }
  rewrite written_lines.
  rewrite (tsv_line_append "prediction" "gold" : ∀ rest, String.append _ rest = _).
  rewrite split_on_app, split_written_lines
    by (eapply Forall_impl; [exact Hpairs|]; by intros ? [[_ ?] [_ ?]]).
  rewrite (split_on_free newline (String.append "prediction" (String tab "gold"))) by done.
  rewrite !fmap_app. change (split_on tab <$> [String.append "prediction" (String tab "gold")])
    with [["prediction"; "gold"]].
  change (split_on tab <$> [EmptyString]) with [[EmptyString]].
  simpl. f_equal. f_equal.
  rewrite <- list_fmap_compose. apply Forall_fmap_ext.
  eapply Forall_impl; [exact Hpairs|]. intros [pred label] [[Hp _] [Hl _]]. simpl in *.
  rewrite split_on_app, !split_on_free by done. done.
Qed.

Lemma write_generations_read_back_witness :
  read_tsv (write_generations ["a b"; "c"; "d"] ["a b"; "e"])
  = ["prediction"; "gold"]
    :: ((λ pair : string * string, [pair.1; pair.2]) <$> zip ["a b"; "c"; "d"] ["a b"; "e"])
    ++ [[EmptyString]].
Proof.
  apply write_generations_read_back.
  - repeat constructor.
  - repeat constructor.
Defined.
